(** * FolioMind: rule-based document classification and field extraction

    A shallow embedding of the decision core of the FolioMind backend:
    the six signal detectors of [app/core/detectors], the orchestrator
    [ClassificationService.classify] and the pattern extractor and refiner
    of [ExtractionService], followed by the properties the specification
    states about them.

    Conventions of the embedding.
    - A Python [str] is a [string]; an [ascii] stands for the code point of
      the same number, so the texts covered are those whose code points are
      below 256 (Latin-1).  [str.lower], [\s], [\d], [\w] and the
      [re.IGNORECASE] flag are given their Python meaning on that range.
    - A Python [float] is a binary64 [float] of the kernel, multiplied with
      [PrimFloat.mul] as Python multiplies.
    - A Python [dict] of diagnostics is a [gmap string pyobj].
    - Logging has no influence on any returned value and is left out. *)

From Stdlib Require Import String Ascii ZArith Bool List Lia Floats.
From stdpp Require Import base option list gmap strings.

Set Warnings "-inexact-float".
Local Open Scope string_scope.
Local Open Scope list_scope.

(** ** Python strings *)

Module Py.

(** Code point of a character. *)
Definition ord (c : ascii) : nat := nat_of_ascii c.

Definition in_range (lo hi : nat) (c : ascii) : bool :=
  (lo <=? ord c)%nat && (ord c <=? hi)%nat.

(** [str.lower] on one code point below 256: the ASCII capitals and the
    Latin-1 capitals 0xC0..0xDE (the multiplication sign 0xD7 apart) move
    up by 32, every other code point is kept. *)
Definition lower_char (c : ascii) : ascii :=
  if in_range 65 90 c then ascii_of_nat (ord c + 32)
  else if in_range 192 222 c && negb (ord c =? 215)%nat
       then ascii_of_nat (ord c + 32)
  else c.

(** Simple upper-case mapping, used by [re.IGNORECASE]; code points whose
    capital lies outside Latin-1 (0xB5, 0xFF) or is not a single code
    point (0xDF) are kept. *)
Definition upper_char (c : ascii) : ascii :=
  if in_range 97 122 c then ascii_of_nat (ord c - 32)
  else if in_range 224 254 c && negb (ord c =? 247)%nat
       then ascii_of_nat (ord c - 32)
  else c.

Fixpoint lower (s : string) : string :=
  match s with
  | EmptyString => EmptyString
  | String c s' => String (lower_char c) (lower s')
  end.

(** [s.startswith(p)]. *)
Fixpoint startswith (p s : string) : bool :=
  match p, s with
  | EmptyString, _ => true
  | String a p', String b s' => Ascii.eqb a b && startswith p' s'
  | String _ _, EmptyString => false
  end.

(** [needle in hay] on strings. *)
Fixpoint str_in (needle hay : string) : bool :=
  startswith needle hay ||
  match hay with
  | EmptyString => false
  | String _ hay' => str_in needle hay'
  end.

(** [any(term in text for term in terms)]. *)
Definition any_in (terms : list string) (text : string) : bool :=
  existsb (fun term => str_in term text) terms.

(** [sep.join(parts)]. *)
Fixpoint join (sep : string) (parts : list string) : string :=
  match parts with
  | [] => EmptyString
  | [p] => p
  | p :: rest => p +:+ sep +:+ join sep rest
  end.

(** [sum] of a list of booleans. *)
Definition sum_bools (bs : list bool) : Z :=
  foldr (fun (b : bool) acc => ((if b then 1 else 0) + acc)%Z) 0%Z bs.

(** Values stored in the diagnostic dictionaries. *)
Inductive pyobj : Type :=
| VBool (b : bool)
| VInt (n : Z)
| VStr (s : string)
| VNone.

(** Python truthiness of a looked-up value ([None] when the key is absent). *)
Definition truthy (v : option pyobj) : bool :=
  match v with
  | Some (VBool b) => b
  | Some (VInt n) => negb (n =? 0)%Z
  | Some (VStr s) => negb (String.eqb s "")
  | Some VNone | None => false
  end.

(** [d.get(k, 0)] read as an integer; the detectors only store integers
    ([bool] being a subtype of [int]) under the keys read this way. *)
Definition get_int (d : gmap string pyobj) (k : string) : Z :=
  match d !! k with
  | Some (VInt n) => n
  | Some (VBool b) => if b then 1%Z else 0%Z
  | _ => 0%Z
  end.

End Py.

Import Py.

(** ** Signal detectors *)

Module promotional.

Definition incentive_verbs : list string :=
  ["get $"; "earn"; "save $"; "receive"; "win"; "claim"; "redeem"].

Definition conditionals : list string :=
  ["when you"; "if you"; "after you"; "you'll"; "we'll"; "you will";
   "you can"].

Definition promo_terms : list string :=
  ["promo code"; "promotional code"; "offer code"; "offer"; "promotion";
   "deal"; "bonus"; "reward"; "free"; "gift"].

Definition urgency : list string :=
  ["limited time"; "expires"; "ends"; "by "; "hurry"; "act now";
   "don't miss"; "last chance"].

Definition ctas : list string :=
  ["sign up"; "enroll"; "apply now"; "join now"; "visit"; "call now";
   "click here"; "register"].

Definition is_promotional (text : string) : bool * gmap string pyobj :=
  let has_incentive_verb := any_in incentive_verbs text in
  let has_conditional := any_in conditionals text in
  let has_promo_term := any_in promo_terms text in
  let has_urgency := any_in urgency text in
  let has_cta := any_in ctas text in
  let signal_count :=
    sum_bools [has_incentive_verb; has_conditional; has_promo_term;
               has_urgency; has_cta] in
  let is_promo := (2 <=? signal_count)%Z in
  (is_promo,
   list_to_map
     [("signal_count", VInt signal_count);
      ("has_incentive_verb", VBool has_incentive_verb);
      ("has_conditional", VBool has_conditional);
      ("has_promo_term", VBool has_promo_term);
      ("has_urgency", VBool has_urgency);
      ("has_cta", VBool has_cta)]).

End promotional.

Module insurance.

Definition anti_patterns : list string :=
  ["this is not an insurance card"; "summary of benefits";
   "explanation of benefits"; "eob"; "claim statement";
   "billing statement"].

Definition card_indicators : list string :=
  ["member id"; "subscriber id"; "policy number"; "certificate number"].

Definition insurance_terms : list string :=
  ["copay"; "rx bin"; "rx grp"; "deductible"; "payer id"].

Definition network_terms : list string := ["ppo"; "hmo"; "epo"; "pos"].

Definition known_insurers : list string :=
  ["blue cross"; "blue shield"; "premera"; "regence"; "aetna"; "cigna";
   "kaiser"; "vsp"; "delta dental"].

Definition is_insurance_card (text : string) (field_keys : list string)
  : bool * gmap string pyobj :=
  if any_in anti_patterns text then
    (false, list_to_map [("rejected_reason", VStr "anti_pattern")])
  else
    let has_card_indicator := any_in card_indicators text in
    let has_insurance_term := any_in insurance_terms text in
    let has_network_term := any_in network_terms text in
    let has_known_insurer := any_in known_insurers text in
    let signal_count :=
      sum_bools [has_card_indicator; has_insurance_term; has_network_term;
                 has_known_insurer] in
    let has_rx_bin := str_in "rx bin" text || str_in "rxbin" text in
    let is_insurance := (2 <=? signal_count)%Z || has_rx_bin in
    (is_insurance,
     list_to_map
       [("signal_count", VInt signal_count);
        ("has_card_indicator", VBool has_card_indicator);
        ("has_insurance_term", VBool has_insurance_term);
        ("has_network_term", VBool has_network_term);
        ("has_known_insurer", VBool has_known_insurer);
        ("has_rx_bin", VBool has_rx_bin)]).

End insurance.

(** ** The fragment of Python's [re] the program uses

    A backtracking matcher in continuation-passing style: alternatives are
    tried left to right, repetitions are greedy and give characters back one
    at a time, and the first overall success is the match, as in [re]. *)

Module Re.

(** Items of a character class. *)
Inductive item : Type :=
| IChr (c : ascii)        (* a literal character *)
| IRng (lo hi : ascii)    (* a range lo-hi *)
| IDigit                  (* \d *)
| ISpace.                 (* \s *)

Definition is_digit (c : ascii) : bool := in_range 48 57 c.

Definition is_space (c : ascii) : bool :=
  in_range 9 13 c || in_range 28 32 c || (ord c =? 133)%nat
  || (ord c =? 160)%nat.

(** [\w]: alphanumeric code points and the underscore. *)
Definition is_word (c : ascii) : bool :=
  in_range 48 57 c || in_range 65 90 c || (ord c =? 95)%nat
  || in_range 97 122 c
  || (ord c =? 170)%nat || in_range 178 179 c || (ord c =? 181)%nat
  || in_range 185 186 c || in_range 188 190 c
  || in_range 192 214 c || in_range 216 246 c || in_range 248 255 c.

Definition item_match (i : item) (c : ascii) : bool :=
  match i with
  | IChr a => Ascii.eqb a c
  | IRng lo hi => in_range (ord lo) (ord hi) c
  | IDigit => is_digit c
  | ISpace => is_space c
  end.

(** A class matches a character when one of its items does; under
    [re.IGNORECASE] (the flag [ic]) the other case of the character is
    tried as well. *)
Definition cls_match (ic : bool) (cl : list item) (c : ascii) : bool :=
  existsb (fun i => item_match i c
                    || ic && (item_match i (lower_char c)
                              || item_match i (upper_char c))) cl.

Inductive regex : Type :=
| Lit (s : string)                              (* literal characters *)
| Cls (cl : list item)                          (* [...] *)
| Rep (cl : list item) (lo : nat) (hi : option nat)  (* [...]{lo,hi} *)
| Opt (r : regex)                               (* (?:r)? *)
| Seq (r1 r2 : regex)
| Alt (r1 r2 : regex)                           (* r1|r2 *)
| Grp (n : nat) (r : regex)                     (* capturing group n *)
| WordB.                                        (* \b *)

Fixpoint cat (rs : list regex) : regex :=
  match rs with
  | [] => Lit ""
  | [r] => r
  | r :: rs' => Seq r (cat rs')
  end.

Definition star (cl : list item) : regex := Rep cl 0 None.
Definition plus (cl : list item) : regex := Rep cl 1 None.
Definition maybe (cl : list item) : regex := Rep cl 0 (Some 1).
Definition times (cl : list item) (n : nat) : regex := Rep cl n (Some n).

(** A position in the subject: the character before it, the text after
    it, and the groups captured so far. *)
Record pos : Type :=
  { prev : option ascii; rest : string; caps : list (nat * string) }.

Definition advance (p : pos) (c : ascii) (s : string) : pos :=
  {| prev := Some c; rest := s; caps := caps p |}.

(** The text between two positions of one subject. *)
Definition consumed (from to : string) : string :=
  String.substring 0 (String.length from - String.length to) from.

Fixpoint lit (ic : bool) (s : string) (p : pos) : option pos :=
  match s with
  | EmptyString => Some p
  | String a s' =>
      match rest p with
      | String b t =>
          if cls_match ic [IChr a] b then lit ic s' (advance p b t) else None
      | EmptyString => None
      end
  end.

Definition hi_open (hi : option nat) : bool :=
  match hi with Some 0 => false | _ => true end.

Fixpoint rep {R} (ic : bool) (cl : list item) (lo : nat) (hi : option nat)
    (cs : list (nat * string)) (pv : option ascii) (s : string)
    (k : pos -> option R) : option R :=
  let stop :=
    match lo with
    | 0 => k {| prev := pv; rest := s; caps := cs |}
    | S _ => None
    end in
  match s with
  | String b t =>
      if hi_open hi && cls_match ic cl b then
        match rep ic cl (Nat.pred lo) (Nat.pred <$> hi) cs (Some b) t k with
        | Some x => Some x
        | None => stop
        end
      else stop
  | EmptyString => stop
  end.

Definition word_opt (c : option ascii) : bool :=
  match c with Some a => is_word a | None => false end.

Definition next (p : pos) : option ascii :=
  match rest p with String b _ => Some b | EmptyString => None end.

Fixpoint run {R} (ic : bool) (r : regex) (p : pos) (k : pos -> option R)
  : option R :=
  match r with
  | Lit s => match lit ic s p with Some p' => k p' | None => None end
  | Cls cl =>
      match rest p with
      | String b t => if cls_match ic cl b then k (advance p b t) else None
      | EmptyString => None
      end
  | Rep cl lo hi => rep ic cl lo hi (caps p) (prev p) (rest p) k
  | Opt r1 =>
      match run ic r1 p k with Some x => Some x | None => k p end
  | Seq r1 r2 => run ic r1 p (fun p' => run ic r2 p' k)
  | Alt r1 r2 =>
      match run ic r1 p k with Some x => Some x | None => run ic r2 p k end
  | Grp n r1 =>
      run ic r1 p
        (fun p' =>
           k {| prev := prev p'; rest := rest p';
                caps := (n, consumed (rest p) (rest p')) :: caps p' |})
  | WordB =>
      if xorb (word_opt (prev p)) (word_opt (next p)) then k p else None
  end.

(** A match object: the whole match and the captured groups. *)
Record rmatch : Type :=
  { whole : string; groups : list (nat * string) }.

(** [m.group(n)] for [n >= 1]; every pattern of the program whose group 1
    is read has that group on every path, so the empty default is never
    returned. *)
Definition group (m : rmatch) (n : nat) : string :=
  match List.find (fun e => (e.1 =? n)%nat) (groups m) with
  | Some e => e.2
  | None => ""
  end.

(** A match starting exactly at the position ([pv] before, [s] after). *)
Definition match_at (ic : bool) (r : regex) (pv : option ascii) (s : string)
  : option rmatch :=
  match run ic r {| prev := pv; rest := s; caps := [] |} Some with
  | Some p' => Some {| whole := consumed s (rest p'); groups := caps p' |}
  | None => None
  end.

(** [re.search]: the match at the leftmost position that has one. *)
Fixpoint search_from (ic : bool) (r : regex) (pv : option ascii)
    (s : string) : option rmatch :=
  match match_at ic r pv s with
  | Some m => Some m
  | None =>
      match s with
      | String b t => search_from ic r (Some b) t
      | EmptyString => None
      end
  end.

Definition search (ic : bool) (r : regex) (s : string) : option rmatch :=
  search_from ic r None s.

(** [bool(re.search(r, s))]. *)
Definition found (ic : bool) (r : regex) (s : string) : bool :=
  match search ic r s with Some _ => true | None => false end.

(** [re.finditer]: the matches from left to right, without overlap.
    [skip] counts the characters of the last match still to step over. *)
Fixpoint finditer_from (ic : bool) (r : regex) (skip : nat)
    (pv : option ascii) (s : string) : list rmatch :=
  match skip with
  | S n =>
      match s with
      | String b t => finditer_from ic r n (Some b) t
      | EmptyString => []
      end
  | 0 =>
      match match_at ic r pv s with
      | Some m =>
          m :: match s with
               | String b t =>
                   finditer_from ic r (Nat.pred (String.length (whole m)))
                     (Some b) t
               | EmptyString => []
               end
      | None =>
          match s with
          | String b t => finditer_from ic r 0 (Some b) t
          | EmptyString => []
          end
      end
  end.

Definition finditer (ic : bool) (r : regex) (s : string) : list rmatch :=
  finditer_from ic r 0 None s.

(** [re.findall] for a pattern without capturing group. *)
Definition findall (r : regex) (s : string) : list string :=
  whole <$> finditer false r s.

Definition chr (c : ascii) : list item := [IChr c].
Definition d : list item := [IDigit].
Definition sp : list item := [ISpace].
Definition AZ09 : list item := [IRng "A" "Z"; IRng "0" "9"].

End Re.

Module credit_card.

Import Re.

(** [int(digit)] for a decimal digit character. *)
Definition int_of_digit (c : ascii) : Z := Z.of_nat (ord c - 48).

(** [re.sub(r"\D", "", s)]: the digits of [s], in order. *)
Fixpoint digits_only (s : string) : string :=
  match s with
  | EmptyString => EmptyString
  | String c s' =>
      if is_digit c then String c (digits_only s') else digits_only s'
  end.

(** [digits[::-1]] as the list of its characters. *)
Definition reversed (s : string) : list ascii :=
  reverse (list_ascii_of_string s).

(** One turn of the loop of [luhn_check]: [i] is the index given by
    [enumerate], [total] the running sum. *)
Definition luhn_step (total : Z) (i : nat) (digit : ascii) : Z :=
  let n := int_of_digit digit in
  let n :=
    if (i mod 2 =? 1)%nat then
      let n := (n * 2)%Z in
      if (9 <? n)%Z then (n - 9)%Z else n
    else n in
  (total + n)%Z.

Fixpoint luhn_loop (total : Z) (i : nat) (ds : list ascii) : Z :=
  match ds with
  | [] => total
  | digit :: ds' => luhn_loop (luhn_step total i digit) (S i) ds'
  end.

Definition luhn_check (card_number : string) : bool :=
  let digits := digits_only card_number in
  if String.eqb digits ""
     || (String.length digits <? 13)%nat
     || (19 <? String.length digits)%nat
  then false
  else (luhn_loop 0 0 (reversed digits) mod 10 =? 0)%Z.

Definition sep : list item := [ISpace; IChr "-"].

(** [\b\d{4}[\s\-]?\d{4}[\s\-]?\d{4}[\s\-]?\d{3,7}\b] *)
Definition pattern : regex :=
  cat [WordB; times d 4; maybe sep; times d 4; maybe sep; times d 4;
       maybe sep; Rep d 3 (Some 7); WordB].

(** [\b\d{13,19}\b] *)
Definition pattern2 : regex := cat [WordB; Rep d 13 (Some 19); WordB].

Definition extract_card_numbers (text : string) : list string :=
  findall pattern text ++ findall pattern2 text.

(** [\b(0[1-9]|1[0-2])/(\d{2}|\d{4})\b] *)
Definition expiry_pattern : regex :=
  cat [WordB;
       Grp 1 (Alt (Seq (Lit "0") (Cls [IRng "1" "9"]))
                  (Seq (Lit "1") (Cls [IRng "0" "2"])));
       Lit "/";
       Grp 2 (Alt (times d 2) (times d 4));
       WordB].

Definition non_payment_card_terms : list string :=
  ["gift card"; "member card"; "membership card"; "loyalty card"].

Definition issuer_names : list string :=
  ["visa"; "mastercard"; "amex"; "american express"; "discover";
   "maestro"; "jcb"].

Definition card_type_keywords : list string :=
  ["credit card"; "debit card"; "valid thru"; "expires"].

Definition is_card_key (key : string) : bool :=
  (str_in "card" key && (str_in "number" key || str_in "pan" key))
  || str_in "credit" key
  || str_in "debit" key.

Definition is_credit_card (text : string) (field_values : list string)
    (field_keys : list string) : bool * gmap string pyobj :=
  let is_non_payment_card := any_in non_payment_card_terms text in
  let has_issuer_name := any_in issuer_names text in
  if is_non_payment_card && negb has_issuer_name then
    (false, list_to_map [("rejected_reason", VStr "non_payment_card")])
  else
    let card_numbers := extract_card_numbers text in
    let has_valid_pan := existsb luhn_check card_numbers in
    let has_expiry := found false expiry_pattern text in
    let has_card_field := existsb is_card_key field_keys in
    let has_card_keyword := any_in card_type_keywords text in
    let has_strong_context :=
      has_issuer_name || has_expiry || has_card_field || has_card_keyword in
    let is_card := has_valid_pan && has_strong_context in
    (is_card,
     list_to_map
       [("has_valid_pan", VBool has_valid_pan);
        ("has_issuer_name", VBool has_issuer_name);
        ("has_expiry", VBool has_expiry);
        ("has_card_field", VBool has_card_field);
        ("has_card_keyword", VBool has_card_keyword);
        ("is_non_payment_card", VBool is_non_payment_card)]).

End credit_card.

Module receipt.

Import Re.

(** [\$\s*\d+(?:\.\d{2})?] *)
Definition amount_pattern : regex :=
  cat [Lit "$"; star sp; plus d; Opt (Seq (Lit ".") (times d 2))].

Definition count_amounts (text : string) : nat :=
  length (findall amount_pattern text).

Definition transaction_patterns : list string :=
  ["receipt #"; "receipt number"; "transaction #"; "order #";
   "order number"; "confirmation #"].

Definition card_types : list string :=
  ["visa"; "mastercard"; "amex"; "discover"].

Definition payment_indicators : list string :=
  ["auth code"; "approval"; "paid with"].

Definition cash_indicators : list string :=
  ["cash"; "change:"; "tendered"; "amount paid"].

Definition merchant_indicators : list string :=
  ["store #"; "cashier"; "terminal"; "server:"; "table:"].

Definition receipt_keywords : list string :=
  ["receipt"; "thank you for shopping"].

Definition payment_complete_words : list string :=
  ["tendered"; "change:"; "change due"].

Definition is_receipt (text : string) (field_keys : list string)
    (is_promotional : bool) : bool * gmap string pyobj :=
  if is_promotional then
    (false, list_to_map [("rejected_reason", VStr "promotional")])
  else
    let has_transaction_id := any_in transaction_patterns text in
    let has_card_payment :=
      any_in card_types text || any_in payment_indicators text in
    let has_cash_payment := any_in cash_indicators text in
    let has_payment_method := has_card_payment || has_cash_payment in
    let has_merchant_context := any_in merchant_indicators text in
    if has_transaction_id && has_payment_method then
      (true,
       list_to_map
         [("rule", VStr "strong_transaction");
          ("has_transaction_id", VBool true);
          ("has_payment_method", VBool true)])
    else if has_merchant_context && has_payment_method then
      (true,
       list_to_map
         [("rule", VStr "merchant_payment");
          ("has_merchant_context", VBool true);
          ("has_payment_method", VBool true)])
    else
      let has_receipt_word := any_in receipt_keywords text in
      let has_payment_complete := any_in payment_complete_words text in
      let has_multiple_amounts := (3 <=? count_amounts text)%nat in
      if has_receipt_word && has_payment_complete && has_multiple_amounts
      then
        (true,
         list_to_map
           [("rule", VStr "weak_combined");
            ("has_receipt_word", VBool true);
            ("has_payment_complete", VBool true);
            ("amount_count", VInt (Z.of_nat (count_amounts text)))])
      else
        (false,
         list_to_map
           [("has_transaction_id", VBool has_transaction_id);
            ("has_payment_method", VBool has_payment_method);
            ("has_merchant_context", VBool has_merchant_context)]).

End receipt.

Module bill.

Definition billing_terms : list string :=
  ["billing statement"; "statement of account"; "billing period";
   "statement date"].

Definition payment_due : list string :=
  ["amount due"; "total due"; "balance due"; "minimum payment";
   "please pay"].

Definition account_terms : list string :=
  ["account number"; "previous balance"; "current charges"; "new balance"].

Definition service_terms : list string :=
  ["utility bill"; "service period"; "usage"; "kwh"; "therms";
   "medical bill"].

Definition invoice_terms : list string := ["invoice number"; "invoice date"].

Definition is_bill_statement (text : string) : bool * gmap string pyobj :=
  let has_billing_term := any_in billing_terms text in
  let has_payment_due := any_in payment_due text in
  let has_account_term := any_in account_terms text in
  let has_service_term := any_in service_terms text in
  let has_invoice := any_in invoice_terms text in
  let '(is_bill, matched_rule) :=
    if has_billing_term then (true, VStr "billing_term")
    else if has_invoice && has_payment_due then (true, VStr "invoice_payment")
    else if has_service_term && has_payment_due
         then (true, VStr "service_payment")
    else if has_account_term && has_payment_due
         then (true, VStr "account_payment")
    else (false, VNone) in
  (is_bill,
   list_to_map
     [("has_billing_term", VBool has_billing_term);
      ("has_payment_due", VBool has_payment_due);
      ("has_account_term", VBool has_account_term);
      ("has_service_term", VBool has_service_term);
      ("has_invoice", VBool has_invoice);
      ("matched_rule", matched_rule)]).

End bill.

Module letter.

Definition salutations : list string :=
  ["dear "; "to whom it may concern"; "hello "; "hi "; "greetings"].

Definition closings : list string :=
  ["sincerely"; "regards"; "best regards"; "best"; "yours truly";
   "respectfully"; "cordially"; "warm regards"].

Definition is_letter (text : string) (is_promotional : bool)
  : bool * gmap string pyobj :=
  if is_promotional then
    (false, list_to_map [("rejected_reason", VStr "promotional")])
  else
    let has_salutation := any_in salutations text in
    let has_closing := any_in closings text in
    let is_letter_format := has_salutation && has_closing in
    (is_letter_format,
     list_to_map
       [("has_salutation", VBool has_salutation);
        ("has_closing", VBool has_closing)]).

End letter.

(** ** Models *)

Inductive DocumentType : Type :=
| RECEIPT
| PROMOTIONAL
| BILL_STATEMENT
| CREDIT_CARD
| INSURANCE_CARD
| LETTER
| GENERIC.

Record FieldModel : Type :=
  { key : string; value : string; confidence : float; source : string }.

Record ClassificationSignals : Type :=
  { sig_promotional : bool;
    sig_receipt : bool;
    sig_bill : bool;
    sig_insurance_card : bool;
    sig_credit_card : bool;
    sig_letter : bool;
    details : gmap string (gmap string pyobj) }.

(** ** The classification orchestrator *)

Module ClassificationService.

Definition _calculate_confidence (signal_count max_signals : Z) : float :=
  if (max_signals <=? signal_count)%Z then 0.95%float
  else if (max_signals - 1 <=? signal_count)%Z then 0.85%float
  else if (2 <=? signal_count)%Z then 0.75%float
  else 0.60%float.

(** [(text + " " + " ".join(field_values)).lower()] with [text] and the
    field values lower-cased beforehand, as [classify] builds it. *)
Definition haystack (ocr_text : string) (fields : list FieldModel) : string :=
  let text := lower ocr_text in
  let field_values := (fun f => lower (value f)) <$> fields in
  lower (text +:+ " " +:+ join " " field_values).

(** [rule == s] for the value stored under ["rule"] (the empty string when
    the key is absent). *)
Definition rule_is (d : gmap string pyobj) (s : string) : bool :=
  match default (VStr "") (d !! "rule") with
  | VStr r => String.eqb r s
  | _ => false
  end.

Definition classify (ocr_text : string) (fields : option (list FieldModel))
    (hint : option DocumentType) (default_type : DocumentType)
  : DocumentType * float * ClassificationSignals :=
  let fields := default [] fields in
  let field_keys := (fun f => lower (key f)) <$> fields in
  let field_values := (fun f => lower (value f)) <$> fields in
  let haystack := haystack ocr_text fields in
  let '(promotional_hit, promo_details) :=
    promotional.is_promotional haystack in
  let '(insurance_hit, insurance_details) :=
    insurance.is_insurance_card haystack field_keys in
  let '(credit_hit, credit_details) :=
    credit_card.is_credit_card haystack field_values field_keys in
  let '(receipt_hit, receipt_details) :=
    receipt.is_receipt haystack field_keys promotional_hit in
  let '(bill_hit, bill_details) := bill.is_bill_statement haystack in
  let '(letter_hit, letter_details) :=
    letter.is_letter haystack promotional_hit in
  let signals :=
    {| sig_promotional := promotional_hit;
       sig_receipt := receipt_hit;
       sig_bill := bill_hit;
       sig_insurance_card := insurance_hit;
       sig_credit_card := credit_hit;
       sig_letter := letter_hit;
       details :=
         list_to_map
           [("promotional", promo_details);
            ("receipt", receipt_details);
            ("insurance_card", insurance_details);
            ("credit_card", credit_details);
            ("bill", bill_details);
            ("letter", letter_details)] |} in
  let '(result, confidence) :=
    if promotional_hit then
      (PROMOTIONAL,
       _calculate_confidence (get_int promo_details "signal_count") 5)
    else if insurance_hit then
      (INSURANCE_CARD,
       let confidence :=
         _calculate_confidence (get_int insurance_details "signal_count") 4
       in
       if truthy (insurance_details !! "has_rx_bin") then 0.95%float
       else confidence)
    else if credit_hit then
      (CREDIT_CARD,
       if truthy (credit_details !! "has_issuer_name") then 0.9%float
       else 0.75%float)
    else if receipt_hit then
      (RECEIPT,
       if rule_is receipt_details "strong_transaction" then 0.95%float
       else if rule_is receipt_details "merchant_payment" then 0.85%float
       else 0.70%float)
    else if bill_hit then
      (BILL_STATEMENT,
       if truthy (bill_details !! "has_billing_term") then 0.9%float
       else 0.75%float)
    else if letter_hit then (LETTER, 0.80%float)
    else (default_type, 0.3%float) in
  (result, confidence, signals).

End ClassificationService.

(** ** Field extraction *)

Module ExtractionService.

Import Re.

Definition pattern_field (k v : string) (c : float) : FieldModel :=
  {| key := k; value := v; confidence := c; source := "pattern" |}.

(** [\$\s*(\d+(?:\.\d{2})?)] *)
Definition amount_pattern : regex :=
  cat [Lit "$"; star sp;
       Grp 1 (Seq (plus d) (Opt (Seq (Lit ".") (times d 2))))].

Definition slash_dash : list item := [IChr "/"; IChr "-"].

(** [\b(\d{1,2}[/-]\d{1,2}[/-]\d{2,4})\b] *)
Definition date_pattern : regex :=
  cat [WordB;
       Grp 1 (cat [Rep d 1 (Some 2); Cls slash_dash; Rep d 1 (Some 2);
                   Cls slash_dash; Rep d 2 (Some 4)]);
       WordB].

Definition alnum : list item := [IRng "A" "Z"; IRng "a" "z"; IRng "0" "9"].

(** [\b[A-Za-z0-9._%+-]+@[A-Za-z0-9.-]+\.[A-Z|a-z]{2,}\b] *)
Definition email_pattern : regex :=
  cat [WordB;
       plus (alnum ++ [IChr "."; IChr "_"; IChr "%"; IChr "+"; IChr "-"]);
       Lit "@";
       plus (alnum ++ [IChr "."; IChr "-"]);
       Lit ".";
       Rep [IRng "A" "Z"; IChr "|"; IRng "a" "z"] 2 None;
       WordB].

Definition dash_dot_space : list item := [IChr "-"; IChr "."; ISpace].

(** [\b(\d{3}[-.\s]?\d{3}[-.\s]?\d{4}|\(\d{3}\)\s*\d{3}[-.\s]?\d{4})\b] *)
Definition phone_pattern : regex :=
  cat [WordB;
       Grp 1 (Alt (cat [times d 3; maybe dash_dot_space; times d 3;
                        maybe dash_dot_space; times d 4])
                  (cat [Lit "("; times d 3; Lit ")"; star sp; times d 3;
                        maybe dash_dot_space; times d 4]));
       WordB].

Definition _extract_pattern_fields (text : string) : list FieldModel :=
  ((fun m => pattern_field "amount" ("$" +:+ group m 1) 0.85%float)
     <$> finditer false amount_pattern text)
  ++ ((fun m => pattern_field "date" (group m 1) 0.90%float)
        <$> finditer false date_pattern text)
  ++ ((fun m => pattern_field "email" (whole m) 0.95%float)
        <$> finditer false email_pattern text)
  ++ ((fun m => pattern_field "phone" (whole m) 0.85%float)
        <$> finditer false phone_pattern text).

(** The new field built for an [amount] field under the name [k]. *)
Definition relabel (k : string) (field : FieldModel) : FieldModel :=
  {| key := k;
     value := value field;
     confidence := (confidence field * 0.9)%float;
     source := source field |}.

(** One turn of the loop of [_refine_fields_by_type]: the element appended
    to [refined] for [field]. *)
Definition refine_one (document_type : DocumentType) (field : FieldModel)
  : FieldModel :=
  match document_type with
  | PROMOTIONAL =>
      if String.eqb (key field) "amount" then relabel "offer_amount" field
      else field
  | RECEIPT => field
  | BILL_STATEMENT =>
      if String.eqb (key field) "amount" then relabel "amount_due" field
      else field
  | _ => field
  end.

Definition _refine_fields_by_type (fields : list FieldModel)
    (document_type : DocumentType) (text : string) : list FieldModel :=
  foldl (fun refined field => refined ++ [refine_one document_type field])
    [] fields.

(** The loop [for pattern in patterns: match = re.search(pattern, text,
    re.IGNORECASE); if match: ...; break]: the match of the first pattern
    of the list that matches. *)
Fixpoint first_match (patterns : list regex) (text : string)
  : option rmatch :=
  match patterns with
  | [] => None
  | pattern :: patterns' =>
      match search true pattern text with
      | Some m => Some m
      | None => first_match patterns' text
      end
  end.

Definition opt_colon : regex := maybe (chr ":").

(** [promo\s*code:?\s*([A-Z0-9]+)], [use\s*code:?\s*([A-Z0-9]+)],
    [code:?\s*([A-Z0-9]{4,})] *)
Definition promo_patterns : list regex :=
  [cat [Lit "promo"; star sp; Lit "code"; opt_colon; star sp;
        Grp 1 (plus AZ09)];
   cat [Lit "use"; star sp; Lit "code"; opt_colon; star sp;
        Grp 1 (plus AZ09)];
   cat [Lit "code"; opt_colon; star sp; Grp 1 (Rep AZ09 4 None)]].

Definition letters : list item := [IRng "A" "Z"; IRng "a" "z"].

(** [([A-Za-z]+\s+\d{1,2},?\s+\d{4})] *)
Definition long_date : regex :=
  Grp 1 (cat [plus letters; plus sp; Rep d 1 (Some 2); maybe (chr ",");
              plus sp; times d 4]).

(** [expires?:?\s*(...)], [ends?:?\s*(...)], [by\s+(\d{1,2}/\d{1,2}/\d{4})] *)
Definition expiry_patterns : list regex :=
  [cat [Lit "expire"; maybe (chr "s"); opt_colon; star sp; long_date];
   cat [Lit "end"; maybe (chr "s"); opt_colon; star sp; long_date];
   cat [Lit "by"; plus sp;
        Grp 1 (cat [Rep d 1 (Some 2); Lit "/"; Rep d 1 (Some 2); Lit "/";
                    times d 4])]].

(** The list of zero or one field a first-match loop appends. *)
Definition first_field (patterns : list regex) (text k : string)
    (c : float) : list FieldModel :=
  match first_match patterns text with
  | Some m => [pattern_field k (group m 1) c]
  | None => []
  end.

Definition _extract_promotional_fields (text : string) : list FieldModel :=
  first_field promo_patterns text "promo_code" 0.95%float
  ++ first_field expiry_patterns text "offer_expiry" 0.90%float.

Definition AZ09dash : list item := AZ09 ++ [IChr "-"].

(** [receipt\s*#:?\s*([A-Z0-9-]+)], [transaction\s*#:?\s*([A-Z0-9-]+)],
    [order\s*#:?\s*([A-Z0-9-]+)] *)
Definition receipt_patterns : list regex :=
  (fun w => cat [Lit w; star sp; Lit "#"; opt_colon; star sp;
                 Grp 1 (plus AZ09dash)])
    <$> ["receipt"; "transaction"; "order"].

(** [total:?\s*\$\s*(\d+\.\d{2})] *)
Definition total_pattern : regex :=
  cat [Lit "total"; opt_colon; star sp; Lit "$"; star sp;
       Grp 1 (cat [plus d; Lit "."; times d 2])].

Definition _extract_receipt_fields (text : string) : list FieldModel :=
  first_field receipt_patterns text "transaction_id" 0.95%float
  ++ match search true total_pattern text with
     | Some m => [pattern_field "total_amount" ("$" +:+ group m 1) 0.95%float]
     | None => []
     end.

Definition slash_date : regex :=
  Grp 1 (cat [Rep d 1 (Some 2); Lit "/"; Rep d 1 (Some 2); Lit "/";
              times d 4]).

(** [due\s*date:?\s*(\d{1,2}/\d{1,2}/\d{4})],
    [payment\s*due:?\s*(\d{1,2}/\d{1,2}/\d{4})] *)
Definition due_date_patterns : list regex :=
  [cat [Lit "due"; star sp; Lit "date"; opt_colon; star sp; slash_date];
   cat [Lit "payment"; star sp; Lit "due"; opt_colon; star sp; slash_date]].

(** [account\s*#?:?\s*([A-Z0-9-]+)] *)
Definition account_pattern : regex :=
  cat [Lit "account"; star sp; maybe (chr "#"); opt_colon; star sp;
       Grp 1 (plus AZ09dash)].

Definition _extract_bill_fields (text : string) : list FieldModel :=
  first_field due_date_patterns text "due_date" 0.95%float
  ++ match search true account_pattern text with
     | Some m => [pattern_field "account_number" (group m 1) 0.90%float]
     | None => []
     end.

Definition extract_fields (ocr_text : string) (document_type : DocumentType)
  : list FieldModel :=
  let fields := _extract_pattern_fields ocr_text in
  let fields := _refine_fields_by_type fields document_type ocr_text in
  match document_type with
  | PROMOTIONAL => fields ++ _extract_promotional_fields ocr_text
  | RECEIPT => fields ++ _extract_receipt_fields ocr_text
  | BILL_STATEMENT => fields ++ _extract_bill_fields ocr_text
  | _ => fields
  end.

End ExtractionService.

(** ** Reading a classification result *)

Definition doc_type (r : DocumentType * float * ClassificationSignals)
  : DocumentType := r.1.1.

Definition conf (r : DocumentType * float * ClassificationSignals) : float :=
  r.1.2.

Definition signals (r : DocumentType * float * ClassificationSignals)
  : ClassificationSignals := r.2.

(** The lower-cased field keys and values [classify] hands to the detectors. *)
Definition keys_of (fields : option (list FieldModel)) : list string :=
  (fun f => lower (key f)) <$> default [] fields.

Definition values_of (fields : option (list FieldModel)) : list string :=
  (fun f => lower (value f)) <$> default [] fields.

Definition hay_of (ocr_text : string) (fields : option (list FieldModel))
  : string :=
  ClassificationService.haystack ocr_text (default [] fields).

(** The line break of the sample documents. *)
Definition nl : string := String (ascii_of_nat 10) EmptyString.

(** The five promotional signal categories of a text, in the order
    [is_promotional] sums them: incentive verb, conditional grammar,
    promotional terminology, urgency or scarcity, call to action. *)
Definition promotional_signals (text : string) : list bool :=
  [any_in promotional.incentive_verbs text;
   any_in promotional.conditionals text;
   any_in promotional.promo_terms text;
   any_in promotional.urgency text;
   any_in promotional.ctas text].

(** The payment-method signal of the receipt detector: a card payment or a
    cash payment. *)
Definition has_payment_method (text : string) : bool :=
  (any_in receipt.card_types text || any_in receipt.payment_indicators text)
  || any_in receipt.cash_indicators text.

(** ** The Luhn checksum in the specification's words

    Reverse the digit string, double every second digit (index 1, 3, 5, ...
    from the reversed end), subtract 9 if the doubled value exceeds 9, sum
    all digits; valid iff the sum is 0 modulo 10. *)

Definition luhn_double (n : Z) : Z :=
  if (9 <? 2 * n)%Z then (2 * n - 9)%Z else (2 * n)%Z.

Definition luhn_sum_spec (digits : list Z) : Z :=
  foldr Z.add 0%Z
    (imap (fun i n => if Nat.odd i then luhn_double n else n) (reverse digits)).

(** The digits of a candidate number, as numbers. *)
Definition digit_values (number : string) : list Z :=
  credit_card.int_of_digit
    <$> list_ascii_of_string (credit_card.digits_only number).

Definition luhn_valid_spec (number : string) : Prop :=
  13 <= length (digit_values number) <= 19
  /\ (luhn_sum_spec (digit_values number) mod 10 = 0)%Z.

(** ** Reading a signal report *)

(** The flag of the signal report that stands for a document type; GENERIC
    has none. *)
Definition signal_of (t : DocumentType) (s : ClassificationSignals) : bool :=
  match t with
  | PROMOTIONAL => sig_promotional s
  | INSURANCE_CARD => sig_insurance_card s
  | CREDIT_CARD => sig_credit_card s
  | RECEIPT => sig_receipt s
  | BILL_STATEMENT => sig_bill s
  | LETTER => sig_letter s
  | GENERIC => false
  end.

(** No detector fired. *)
Definition no_signal (s : ClassificationSignals) : bool :=
  negb (sig_promotional s || sig_insurance_card s || sig_credit_card s
        || sig_receipt s || sig_bill s || sig_letter s).

(** ** Reading a match *)

(** [t] is what is left of [s] after some prefix. *)
Definition is_suffix (t s : string) : Prop := exists pre, s = pre +:+ t.

(** Every captured group occurs in the subject [s0]. *)
Definition caps_in (s0 : string) (cs : list (nat * string)) : Prop :=
  Forall (fun e => str_in e.2 s0 = true) cs.

(** The whole match and every group of [m] occur in the subject [s0]. *)
Definition match_in (s0 : string) (m : Re.rmatch) : Prop :=
  str_in (Re.whole m) s0 = true /\ caps_in s0 (Re.groups m).

(** The pattern without its capturing groups. *)
Fixpoint erase_groups (r : Re.regex) : Re.regex :=
  match r with
  | Re.Opt r1 => Re.Opt (erase_groups r1)
  | Re.Seq r1 r2 => Re.Seq (erase_groups r1) (erase_groups r2)
  | Re.Alt r1 r2 => Re.Alt (erase_groups r1) (erase_groups r2)
  | Re.Grp _ r1 => erase_groups r1
  | _ => r
  end.

(** Two positions at the same place of the subject. *)
Definition same_place (p q : Re.pos) : Prop :=
  Re.prev p = Re.prev q /\ Re.rest p = Re.rest q.

(** Two outcomes that fail together or succeed with related results. *)
Definition both {A B} (rel : A -> B -> Prop) (a : option A) (b : option B)
  : Prop :=
  match a, b with
  | Some x, Some y => rel x y
  | None, None => True
  | _, _ => False
  end.

(** ** Configuration, the provider factory and the endpoints

    The endpoints of [app/api/v1/endpoints] around the two services.  A
    raised exception is modelled by its message, [str(e)], which is all the
    handlers read; an endpoint returns the response or the [HTTPException]
    it raises, together with the factory's singleton.  The range checks
    pydantic makes when a [FieldModel] or a response is built are the
    tests [valid_fields] and [valid_confidence].  Three things are
    outside the program and taken as parameters: how an f-string renders a
    provider, the exception a vendor SDK constructor may raise, and the
    message of pydantic's [ValidationError]. *)

Module config.

Inductive LLMProvider : Type := OPENAI | ANTHROPIC | GOOGLE.

(** The settings the factory reads. *)
Record Settings : Type :=
  { llm_provider : LLMProvider;
    openai_api_key : string;
    anthropic_api_key : string;
    google_api_key : string;
    openai_model : string;
    anthropic_model : string;
    google_model : string }.

Definition get_api_key (self : Settings) (provider : LLMProvider) : string :=
  match provider with
  | OPENAI => openai_api_key self
  | ANTHROPIC => anthropic_api_key self
  | GOOGLE => google_api_key self
  end.

Definition get_model_name (self : Settings) (provider : LLMProvider) : string :=
  match provider with
  | OPENAI => openai_model self
  | ANTHROPIC => anthropic_model self
  | GOOGLE => google_model self
  end.

End config.

Module api.

(** A provider instance: its class and the two attributes
    [LLMProvider.__init__] stores. *)
Record provider : Type :=
  { provider_class : config.LLMProvider;
    api_key : string;
    model_name : string }.

Record HTTPException : Type := { status_code : Z; detail : string }.


Record ExtractRequest : Type :=
  { er_ocr_text : string; er_document_type : DocumentType }.



Record ExtractResponse : Type := { e_fields : list FieldModel }.


(** The constraint [ge=0.0, le=1.0] of the confidence fields. *)
Definition valid_confidence (c : float) : bool :=
  (0 <=? c)%float && (c <=? 1)%float.

(** The same constraint on every [FieldModel] the extractor builds. *)
Definition valid_fields (fields : list FieldModel) : bool :=
  forallb (fun f => valid_confidence (confidence f)) fields.

Section endpoints.

Variable format_provider : config.LLMProvider -> string.
Variable sdk_error : config.LLMProvider -> string -> string -> option string.
Variable validation_error : string.

(** [LLMProviderFactory.create_provider]: the instance, or the message of
    the exception raised. *)
Definition create_provider (settings : config.Settings)
    (provider_type : option config.LLMProvider) : string + provider :=
  let provider_type := default (config.llm_provider settings) provider_type in
  let api_key := config.get_api_key settings provider_type in
  if String.eqb api_key "" then
    inl ("API key not configured for provider: "
         +:+ format_provider provider_type +:+ ". "
         +:+ "Please set the appropriate environment variable.")
  else
    let model_name := config.get_model_name settings provider_type in
    match sdk_error provider_type api_key model_name with
    | Some message => inl message
    | None =>
        inr {| provider_class := provider_type;
               api_key := api_key;
               model_name := model_name |}
    end.

(** [LLMProviderFactory.get_provider] on the class attribute [_instance]:
    the result and the new value of [_instance]. *)
Definition get_provider (settings : config.Settings)
    (_instance : option provider) : (string + provider) * option provider :=
  match _instance with
  | None =>
      match create_provider settings None with
      | inr p => (inr p, Some p)
      | inl message => (inl message, None)
      end
  | Some p => (inr p, Some p)
  end.

Definition reset_provider (_instance : option provider) : option provider :=
  None.


(** [POST /extract]; [ExtractionService()] asks the factory for the
    provider before anything is extracted. *)
Definition extract_fields (settings : config.Settings)
    (_instance : option provider) (request : ExtractRequest)
  : (HTTPException + ExtractResponse) * option provider :=
  match get_provider settings _instance with
  | (inl message, _instance) =>
      (inl {| status_code := 500;
              detail := "Extraction failed: " +:+ message |}, _instance)
  | (inr _, _instance) =>
      let fields :=
        ExtractionService.extract_fields (er_ocr_text request)
          (er_document_type request) in
      if valid_fields fields then (inr {| e_fields := fields |}, _instance)
      else
        (inl {| status_code := 500;
                detail := "Extraction failed: " +:+ validation_error |},
         _instance)
  end.


End endpoints.

End api.

(** * Properties *)

(** ** Strings *)

Lemma append_nil (s : string) : "" +:+ s = s.
Proof. reflexivity. Qed.

Lemma append_cons (c : ascii) (s t : string) :
  String c s +:+ t = String c (s +:+ t).
Proof. reflexivity. Qed.

Lemma append_assoc (a b c : string) : (a +:+ b) +:+ c = a +:+ b +:+ c.
Proof.
  induction a as [|x a IH]; [reflexivity|].
  rewrite !append_cons. by rewrite IH.
Qed.

Lemma lower_app (a b : string) : lower (a +:+ b) = lower a +:+ lower b.
Proof.
  induction a as [|x a IH]; [reflexivity|].
  rewrite append_cons. cbn [lower]. by rewrite IH, append_cons.
Qed.

Lemma startswith_spec (p s : string) :
  startswith p s = true <-> exists r, s = p +:+ r.
Proof.
  revert s. induction p as [|a p IH]; intros s.
  - split; [intros _; by exists s | reflexivity].
  - destruct s as [|b s]; cbn [startswith].
    + split; [discriminate | intros [r Hr]; discriminate Hr].
    + rewrite andb_true_iff, IH, Ascii.eqb_eq. split.
      * intros [-> [r ->]]. by exists r.
      * intros [r Hr]. rewrite append_cons in Hr. injection Hr as -> ->. eauto.
Qed.

(** [needle in hay] holds exactly when [hay] can be cut around [needle]. *)
Lemma str_in_spec (needle hay : string) :
  str_in needle hay = true <-> exists l r, hay = l +:+ needle +:+ r.
Proof.
  induction hay as [|b hay IH].
  - cbn [str_in]. rewrite orb_false_r, startswith_spec. split.
    + intros [r Hr]. by exists "", r.
    + intros [l [r Hr]]. destruct l; [by exists r | discriminate Hr].
  - cbn [str_in]. rewrite orb_true_iff, startswith_spec, IH. split.
    + intros [[r Hr] | [l [r Hr]]].
      * by exists "", r.
      * exists (String b l), r. by rewrite append_cons, Hr.
    + intros [l [r Hr]]. destruct l as [|c l].
      * left. by exists r.
      * right. rewrite append_cons in Hr. injection Hr as -> ->. eauto.
Qed.

Lemma str_in_app_l (needle a b : string) :
  str_in needle a = true -> str_in needle (a +:+ b) = true.
Proof.
  rewrite !str_in_spec. intros [l [r ->]].
  exists l, (r +:+ b). by rewrite !append_assoc.
Qed.

Lemma str_in_lower (needle s : string) :
  lower needle = needle ->
  str_in needle s = true -> str_in needle (lower s) = true.
Proof.
  intros Hn. rewrite !str_in_spec. intros [l [r ->]].
  exists (lower l), (lower r). by rewrite !lower_app, Hn.
Qed.

(** A lower-case phrase found in the recognised text is found in the
    haystack, whatever the fields are. *)
Lemma str_in_haystack (needle ocr_text : string) (fields : list FieldModel) :
  lower needle = needle ->
  str_in needle ocr_text = true ->
  str_in needle (ClassificationService.haystack ocr_text fields) = true.
Proof.
  intros Hn H. unfold ClassificationService.haystack.
  rewrite lower_app. apply str_in_app_l.
  apply str_in_lower; [done|]. by apply str_in_lower.
Qed.

Lemma any_in_true (terms : list string) (term text : string) :
  term ∈ terms -> str_in term text = true -> any_in terms text = true.
Proof.
  intros Hin H. apply existsb_exists. exists term.
  split; [by apply list_elem_of_In | done].
Qed.

(** ** The orchestrator seen through the detectors' hit flags *)

Section classify_facts.

Variables (ocr_text : string) (fields : option (list FieldModel))
          (hint : option DocumentType) (default_type : DocumentType).

Let hay := hay_of ocr_text fields.
Let ks := keys_of fields.
Let vs := values_of fields.
Let promo := promotional.is_promotional hay.
Let ins := insurance.is_insurance_card hay ks.
Let cc := credit_card.is_credit_card hay vs ks.
Let rc := receipt.is_receipt hay ks promo.1.
Let bl := bill.is_bill_statement hay.
Let lt := letter.is_letter hay promo.1.
Let r := ClassificationService.classify ocr_text fields hint default_type.

(** The priority list: the first detector that fired names the type. *)
Lemma doc_type_classify :
  doc_type r =
    if promo.1 then PROMOTIONAL
    else if ins.1 then INSURANCE_CARD
    else if cc.1 then CREDIT_CARD
    else if rc.1 then RECEIPT
    else if bl.1 then BILL_STATEMENT
    else if lt.1 then LETTER
    else default_type.
Proof.
  subst r rc lt. unfold ClassificationService.classify, doc_type.
  fold (hay_of ocr_text fields) (keys_of fields) (values_of fields).
  fold hay ks vs. fold promo ins cc bl.
  destruct promo as [ph pd]; cbn [fst snd].
  destruct ins as [ih idt], cc as [ch cd].
  destruct (receipt.is_receipt hay ks ph) as [rh rd].
  destruct bl as [bh bd], (letter.is_letter hay ph) as [lh ld].
  by destruct ph, ih, ch, rh, bh, lh.
Qed.

Lemma signals_classify :
  sig_promotional (signals r) = promo.1
  /\ sig_receipt (signals r) = rc.1
  /\ sig_bill (signals r) = bl.1
  /\ sig_insurance_card (signals r) = ins.1
  /\ sig_credit_card (signals r) = cc.1
  /\ sig_letter (signals r) = lt.1.
Proof.
  subst r rc lt. unfold ClassificationService.classify, signals.
  fold (hay_of ocr_text fields) (keys_of fields) (values_of fields).
  fold hay ks vs. fold promo ins cc bl.
  destruct promo as [ph pd]; cbn [fst snd].
  destruct ins as [ih idt], cc as [ch cd].
  destruct (receipt.is_receipt hay ks ph) as [rh rd].
  destruct bl as [bh bd], (letter.is_letter hay ph) as [lh ld].
  by destruct ph, ih, ch, rh, bh, lh.
Qed.

(** The confidence attached to the winning type. *)
Lemma conf_classify :
  conf r =
    if promo.1 then
      ClassificationService._calculate_confidence
        (get_int promo.2 "signal_count") 5
    else if ins.1 then
      if truthy (ins.2 !! "has_rx_bin") then 0.95%float
      else ClassificationService._calculate_confidence
             (get_int ins.2 "signal_count") 4
    else if cc.1 then
      if truthy (cc.2 !! "has_issuer_name") then 0.9%float else 0.75%float
    else if rc.1 then
      if ClassificationService.rule_is rc.2 "strong_transaction"
      then 0.95%float
      else if ClassificationService.rule_is rc.2 "merchant_payment"
           then 0.85%float
      else 0.70%float
    else if bl.1 then
      if truthy (bl.2 !! "has_billing_term") then 0.9%float else 0.75%float
    else if lt.1 then 0.80%float
    else 0.3%float.
Proof.
  subst r rc lt. unfold ClassificationService.classify, conf.
  fold (hay_of ocr_text fields) (keys_of fields) (values_of fields).
  fold hay ks vs. fold promo ins cc bl.
  destruct promo as [ph pd]; cbn [fst snd].
  destruct ins as [ih idt], cc as [ch cd].
  destruct (receipt.is_receipt hay ks ph) as [rh rd].
  destruct bl as [bh bd], (letter.is_letter hay ph) as [lh ld].
  by destruct ph, ih, ch, rh, bh, lh.
Qed.

End classify_facts.

(** ** Promotional precedence *)

Lemma is_promotional_hit (text : string) :
  (promotional.is_promotional text).1
  = (2 <=? sum_bools (promotional_signals text))%Z.
Proof. reflexivity. Qed.

(** C1.  Whenever the haystack of a document matches at least two of the five
    promotional signal categories, [classify] returns PROMOTIONAL: whatever
    the fields, the hint and the default type are, and whatever the other
    detectors (receipt and bill among them) find in the same text. *)
Theorem promotional_precedence
    (ocr_text : string) (fields : option (list FieldModel))
    (hint : option DocumentType) (default_type : DocumentType) :
  (2 <= sum_bools (promotional_signals (hay_of ocr_text fields)))%Z ->
  doc_type (ClassificationService.classify ocr_text fields hint default_type)
  = PROMOTIONAL.
Proof.
  intros H. rewrite doc_type_classify, is_promotional_hit.
  by apply Z.leb_le in H as ->.
Qed.

(** A promotional text on which the receipt detector (asked without the
    promotional veto) and the bill detector fire as well. *)
Lemma promotional_precedence_witness :
  let text := "Receipt #77 paid with VISA. Billing statement enclosed. "
              +:+ "Save $5 if you order again." in
  ((receipt.is_receipt (hay_of text None) [] false).1 = true
   /\ (bill.is_bill_statement (hay_of text None)).1 = true)
  /\ doc_type (ClassificationService.classify text None None GENERIC)
     = PROMOTIONAL.
Proof.
  split; [by vm_compute|].
  apply promotional_precedence. by vm_compute.
Defined.

(** ** The hint *)

(** C8.  The hint does not influence the result: two calls that differ in
    the hint only return the same type, confidence and signal report. *)
Theorem hint_is_inert
    (ocr_text : string) (fields : option (list FieldModel))
    (hint1 hint2 : option DocumentType) (default_type : DocumentType) :
  ClassificationService.classify ocr_text fields hint1 default_type
  = ClassificationService.classify ocr_text fields hint2 default_type.
Proof. reflexivity. Qed.

(** ** Gift cards and the credit-card detector *)

(** C5.  A text with a non-payment-card term and no issuer brand name is
    rejected by the credit-card detector at once, whatever digit sequences,
    field values and field keys come with it; and when such a text is the
    haystack of a document, [classify] does not return CREDIT_CARD (the
    default type being another one). *)
Theorem non_payment_card_rejected
    (text : string) (field_values field_keys : list string) :
  any_in credit_card.non_payment_card_terms text = true ->
  any_in credit_card.issuer_names text = false ->
  credit_card.is_credit_card text field_values field_keys
  = (false, list_to_map [("rejected_reason", VStr "non_payment_card")])
  /\ forall ocr_text fields hint default_type,
       hay_of ocr_text fields = text ->
       default_type <> CREDIT_CARD ->
       doc_type
         (ClassificationService.classify ocr_text fields hint default_type)
       <> CREDIT_CARD.
Proof.
  intros Hnp Hiss.
  assert (Hcc : forall fv fk,
             credit_card.is_credit_card text fv fk
             = (false, list_to_map [("rejected_reason", VStr "non_payment_card")])).
  { intros fv fk. unfold credit_card.is_credit_card. by rewrite Hnp, Hiss. }
  split; [apply Hcc|].
  intros ocr_text fields hint default_type Hhay Hdef.
  rewrite doc_type_classify, Hhay, Hcc. cbn [fst].
  repeat case_match; done.
Qed.

(** The gift card of the test suite: a Luhn-shaped number, no issuer. *)
Lemma non_payment_card_rejected_witness :
  let ocr_text := "STARBUCKS GIFT CARD" +:+ nl +:+ "6001 2345 6789 0123"
                  +:+ nl +:+ "Balance: $50.00" in
  (credit_card.is_credit_card (hay_of ocr_text None) [] []).1 = false
  /\ doc_type (ClassificationService.classify ocr_text None None GENERIC)
     <> CREDIT_CARD.
Proof.
  intros ocr_text.
  destruct (non_payment_card_rejected (hay_of ocr_text None) [] [])
    as [Hdet Hcls]; [by vm_compute | by vm_compute |].
  split; [by rewrite Hdet | by apply Hcls].
Defined.

(** ** Bill statements *)

(** C6.  A payment-due term without any billing-specific, invoice, service
    or account-management term does not make a bill statement. *)
Theorem payment_due_alone_is_no_bill (text : string) :
  any_in bill.payment_due text = true ->
  any_in bill.billing_terms text = false ->
  any_in bill.invoice_terms text = false ->
  any_in bill.service_terms text = false ->
  any_in bill.account_terms text = false ->
  (bill.is_bill_statement text).1 = false.
Proof.
  intros Hdue Hbill Hinv Hsvc Hacc. unfold bill.is_bill_statement.
  by rewrite Hdue, Hbill, Hinv, Hsvc, Hacc.
Qed.

Lemma payment_due_alone_is_no_bill_witness :
  (bill.is_bill_statement "thank you. amount due: $0.00").1 = false.
Proof. apply payment_due_alone_is_no_bill; by vm_compute. Defined.

(** ** Insurance cards and the RX BIN shortcut *)

Lemma insurance_rx_bin (text : string) (field_keys : list string) :
  any_in insurance.anti_patterns text = false ->
  str_in "rx bin" text = true ->
  (insurance.is_insurance_card text field_keys).1 = true
  /\ truthy ((insurance.is_insurance_card text field_keys).2 !! "has_rx_bin")
     = true.
Proof.
  intros Hanti Hrx. unfold insurance.is_insurance_card.
  rewrite Hanti, Hrx. cbn [fst snd orb].
  split; [apply orb_true_r|].
  generalize (any_in insurance.card_indicators text),
    (any_in insurance.insurance_terms text),
    (any_in insurance.network_terms text),
    (any_in insurance.known_insurers text).
  intros b1 b2 b3 b4. generalize (sum_bools [b1; b2; b3; b4]).
  reflexivity.
Qed.

(** C3, as the code has it.  A document whose haystack contains "rx bin",
    matches no insurance anti-pattern and does not trigger the promotional
    detector is classified INSURANCE_CARD with confidence 0.95, however many
    of the four insurance signal categories matched. *)
Theorem rx_bin_insurance_card
    (ocr_text : string) (fields : option (list FieldModel))
    (hint : option DocumentType) (default_type : DocumentType) :
  str_in "rx bin" (hay_of ocr_text fields) = true ->
  any_in insurance.anti_patterns (hay_of ocr_text fields) = false ->
  (promotional.is_promotional (hay_of ocr_text fields)).1 = false ->
  let r := ClassificationService.classify ocr_text fields hint default_type in
  doc_type r = INSURANCE_CARD /\ conf r = 0.95%float.
Proof.
  intros Hrx Hanti Hpromo r. subst r.
  destruct (insurance_rx_bin _ (keys_of fields) Hanti Hrx) as [Hhit Hbin].
  rewrite doc_type_classify, conf_classify, Hpromo, Hhit, Hbin. done.
Qed.

(** The card of the test suite, with one insurance category only. *)
Lemma rx_bin_insurance_card_witness :
  let r := ClassificationService.classify ("Group: 12345" +:+ nl +:+ "RX BIN: 004336")
             None None GENERIC in
  doc_type r = INSURANCE_CARD /\ conf r = 0.95%float.
Proof.
  apply rx_bin_insurance_card; by vm_compute.
Defined.

(** The phrase may equally be looked for in the recognised text itself. *)
Lemma rx_bin_in_text (ocr_text : string) (fields : option (list FieldModel)) :
  str_in "rx bin" ocr_text = true ->
  str_in "rx bin" (hay_of ocr_text fields) = true.
Proof. by apply str_in_haystack. Qed.

(** C3 as stated fails: a text with "rx bin" and no anti-pattern that also
    carries two promotional categories ("free", "if you") is PROMOTIONAL. *)
Lemma rx_bin_promotional_counterexample :
  let ocr_text := "rx bin 004336: free refill if you transfer" in
  str_in "rx bin" ocr_text = true
  /\ any_in insurance.anti_patterns (hay_of ocr_text None) = false
  /\ doc_type (ClassificationService.classify ocr_text None None GENERIC)
     = PROMOTIONAL
  /\ conf (ClassificationService.classify ocr_text None None GENERIC)
     = 0.75%float.
Proof. by vm_compute. Qed.

(** ** Receipts *)

Example count_amounts_demo :
  receipt.count_amounts "coffee $2.50, tip $ 1, total $3.50 (cash $5)" = 4.
Proof. by vm_compute. Qed.

Lemma receipt_strong (text : string) (field_keys : list string) :
  any_in receipt.transaction_patterns text = true ->
  has_payment_method text = true ->
  receipt.is_receipt text field_keys false
  = (true,
     list_to_map
       [("rule", VStr "strong_transaction");
        ("has_transaction_id", VBool true);
        ("has_payment_method", VBool true)]).
Proof.
  unfold has_payment_method, receipt.is_receipt. by intros -> ->.
Qed.

Lemma receipt_medium (text : string) (field_keys : list string) :
  any_in receipt.transaction_patterns text = false ->
  any_in receipt.merchant_indicators text = true ->
  has_payment_method text = true ->
  receipt.is_receipt text field_keys false
  = (true,
     list_to_map
       [("rule", VStr "merchant_payment");
        ("has_merchant_context", VBool true);
        ("has_payment_method", VBool true)]).
Proof.
  unfold has_payment_method, receipt.is_receipt. by intros -> -> ->.
Qed.

(** C4, as the code has it.  A document whose haystack has a transaction-ID
    pattern and a payment-method signal, on which neither the promotional
    nor the insurance-card nor the credit-card detector fires, is classified
    RECEIPT with confidence 0.95. *)
Theorem strong_receipt
    (ocr_text : string) (fields : option (list FieldModel))
    (hint : option DocumentType) (default_type : DocumentType) :
  let hay := hay_of ocr_text fields in
  any_in receipt.transaction_patterns hay = true ->
  has_payment_method hay = true ->
  (promotional.is_promotional hay).1 = false ->
  (insurance.is_insurance_card hay (keys_of fields)).1 = false ->
  (credit_card.is_credit_card hay (values_of fields) (keys_of fields)).1
  = false ->
  let r := ClassificationService.classify ocr_text fields hint default_type in
  doc_type r = RECEIPT
  /\ conf r = 0.95%float
  /\ (0.95 <=? conf r)%float = true.
Proof.
  intros hay Htid Hpay Hpromo Hins Hcc r. subst r hay.
  rewrite doc_type_classify, conf_classify, Hpromo, Hins, Hcc.
  rewrite (receipt_strong _ _ Htid Hpay). done.
Qed.

Lemma strong_receipt_witness :
  let r := ClassificationService.classify
             ("Corner Store" +:+ nl +:+ "Receipt #123" +:+ nl
              +:+ "Coffee: $2.50" +:+ nl +:+ "Cash" +:+ nl +:+ "Change: $7.50")
             None None GENERIC in
  doc_type r = RECEIPT
  /\ conf r = 0.95%float
  /\ (0.95 <=? conf r)%float = true.
Proof. apply strong_receipt; by vm_compute. Defined.

(** C4 as stated fails: with a transaction ID, a card brand and no
    promotional signal at all, "rx bin" still makes the document an
    insurance card, which ranks above the receipt. *)
Lemma strong_receipt_counterexample :
  let ocr_text := "Receipt #456" +:+ nl +:+ "VISA ****1234" +:+ nl
                  +:+ "RX BIN: 004336" in
  let hay := hay_of ocr_text None in
  any_in receipt.transaction_patterns hay = true
  /\ has_payment_method hay = true
  /\ sum_bools (promotional_signals hay) = 0%Z
  /\ doc_type (ClassificationService.classify ocr_text None None GENERIC)
     = INSURANCE_CARD.
Proof. by vm_compute. Qed.

Lemma cashier_has_cash (text : string) :
  str_in "cashier" text = true -> str_in "cash" text = true.
Proof.
  rewrite !str_in_spec. intros [l [r ->]]. by exists l, ("ier" +:+ r).
Qed.

(** C10, as the code has it.  A text containing "cashier" has both a
    merchant-context indicator and, through its substring "cash", a
    payment-method signal, so the receipt detector (not vetoed by the
    promotional one) accepts it: by the strong tier when a transaction-ID
    pattern is present, by the medium tier with rule "merchant_payment"
    otherwise.  When such a text is the haystack of a document and neither
    the promotional nor the insurance nor the credit-card detector fires,
    [classify] returns RECEIPT, with confidence 0.95 in the first case and
    0.85 in the second. *)
Theorem cashier_receipt (text : string) (field_keys : list string) :
  str_in "cashier" text = true ->
  let strong := any_in receipt.transaction_patterns text in
  receipt.is_receipt text field_keys false
  = (true,
     if strong then
       list_to_map
         [("rule", VStr "strong_transaction");
          ("has_transaction_id", VBool true);
          ("has_payment_method", VBool true)]
     else
       list_to_map
         [("rule", VStr "merchant_payment");
          ("has_merchant_context", VBool true);
          ("has_payment_method", VBool true)])
  /\ forall ocr_text fields hint default_type,
       hay_of ocr_text fields = text ->
       keys_of fields = field_keys ->
       (promotional.is_promotional text).1 = false ->
       (insurance.is_insurance_card text field_keys).1 = false ->
       (credit_card.is_credit_card text (values_of fields) field_keys).1
       = false ->
       let r :=
         ClassificationService.classify ocr_text fields hint default_type in
       doc_type r = RECEIPT
       /\ conf r = if strong then 0.95%float else 0.85%float.
Proof.
  intros Hcashier strong.
  assert (Hpay : has_payment_method text = true).
  { unfold has_payment_method. apply orb_true_iff. right.
    apply (any_in_true _ "cash"); [set_solver | by apply cashier_has_cash]. }
  assert (Hmerchant : any_in receipt.merchant_indicators text = true).
  { apply (any_in_true _ "cashier"); [set_solver | done]. }
  assert (Hrc : receipt.is_receipt text field_keys false
                = (true,
                   if strong then
                     list_to_map
                       [("rule", VStr "strong_transaction");
                        ("has_transaction_id", VBool true);
                        ("has_payment_method", VBool true)]
                   else
                     list_to_map
                       [("rule", VStr "merchant_payment");
                        ("has_merchant_context", VBool true);
                        ("has_payment_method", VBool true)])).
  { subst strong.
    destruct (any_in receipt.transaction_patterns text) eqn:Htid.
    - by apply receipt_strong.
    - by apply receipt_medium. }
  split; [exact Hrc|].
  intros ocr_text fields hint default_type Hhay Hkeys Hpromo Hins Hcc r.
  subst r. rewrite doc_type_classify, conf_classify.
  rewrite Hhay, Hkeys, Hpromo, Hins, Hcc, Hrc. cbn [fst snd].
  by destruct strong.
Qed.

Lemma cashier_receipt_witness :
  let ocr_text := "Cashier: Amy" in
  (receipt.is_receipt (hay_of ocr_text None) [] false).1 = true
  /\ ClassificationService.rule_is
       (receipt.is_receipt (hay_of ocr_text None) [] false).2
       "merchant_payment" = true
  /\ doc_type (ClassificationService.classify ocr_text None None GENERIC)
     = RECEIPT
  /\ conf (ClassificationService.classify ocr_text None None GENERIC)
     = 0.85%float.
Proof.
  intros ocr_text.
  destruct (cashier_receipt (hay_of ocr_text None) []) as [Hdet Hcls];
    [by vm_compute|].
  destruct (Hcls ocr_text None None GENERIC) as [Hty Hconf];
    [done | done | by vm_compute | by vm_compute | by vm_compute |].
  split; [by rewrite Hdet|].
  split; [rewrite Hdet; by vm_compute|].
  split; [exact Hty | rewrite Hconf; by vm_compute].
Defined.

(** C10 as stated fails: with a transaction ID next to "cashier" the strong
    tier answers first, the rule is "strong_transaction" and the confidence
    0.95. *)
Lemma cashier_receipt_counterexample :
  let ocr_text := "cashier: amy, receipt #12" in
  let hay := hay_of ocr_text None in
  str_in "cashier" hay = true
  /\ (promotional.is_promotional hay).1 = false
  /\ (insurance.is_insurance_card hay []).1 = false
  /\ (credit_card.is_credit_card hay [] []).1 = false
  /\ ClassificationService.rule_is (receipt.is_receipt hay [] false).2
       "merchant_payment" = false
  /\ ClassificationService.rule_is (receipt.is_receipt hay [] false).2
       "strong_transaction" = true
  /\ conf (ClassificationService.classify ocr_text None None GENERIC)
     = 0.95%float.
Proof. by vm_compute. Qed.

(** ** The Luhn checksum and the credit-card detector *)

Example luhn_check_valid : credit_card.luhn_check "4111 1111 1111 1111" = true.
Proof. reflexivity. Qed.

Example luhn_check_invalid :
  credit_card.luhn_check "4532 1234 5678 9012" = false
  /\ luhn_sum_spec (digit_values "4532 1234 5678 9012") = 68%Z.
Proof. split; reflexivity. Qed.

Example luhn_check_too_short : credit_card.luhn_check "4111 1111" = false.
Proof. reflexivity. Qed.

Example extract_card_numbers_demo :
  credit_card.extract_card_numbers "pan 4111-1111-1111-1111, id 1234567890123"
  = ["4111-1111-1111-1111"; "1234567890123"].
Proof. by vm_compute. Qed.

Lemma odd_mod2 (i : nat) : (i mod 2 =? 1)%nat = Nat.odd i.
Proof. rewrite <- Nat.bit0_mod, Nat.bit0_odd. by destruct (Nat.odd i). Qed.

Lemma luhn_step_spec (total : Z) (i : nat) (digit : ascii) :
  credit_card.luhn_step total i digit
  = (total + (if Nat.odd i then luhn_double (credit_card.int_of_digit digit)
              else credit_card.int_of_digit digit))%Z.
Proof.
  unfold credit_card.luhn_step, luhn_double. rewrite odd_mod2.
  by rewrite (Z.mul_comm _ 2).
Qed.

(** The loop of [luhn_check], started at index [i] with the running sum
    [total], adds the digits doubled at the odd indexes. *)
Lemma luhn_loop_sum (ds : list ascii) (total : Z) (i : nat) :
  credit_card.luhn_loop total i ds
  = (total
     + foldr Z.add 0
         (imap (fun j c =>
                  if Nat.odd (i + j) then luhn_double (credit_card.int_of_digit c)
                  else credit_card.int_of_digit c) ds))%Z.
Proof.
  revert total i. induction ds as [|c ds IH]; intros total i.
  - cbn. lia.
  - cbn [credit_card.luhn_loop imap foldr].
    rewrite IH, luhn_step_spec, Nat.add_0_r, <- Z.add_assoc.
    do 3 f_equal. apply imap_ext. intros j x _. cbn. by rewrite Nat.add_succ_r.
Qed.

Lemma length_list_ascii (s : string) :
  length (list_ascii_of_string s) = String.length s.
Proof. induction s as [|c s IH]; [done | cbn; by rewrite IH]. Qed.

Lemma luhn_loop_spec (number : string) :
  credit_card.luhn_loop 0 0
    (credit_card.reversed (credit_card.digits_only number))
  = luhn_sum_spec (digit_values number).
Proof.
  rewrite luhn_loop_sum. unfold luhn_sum_spec, digit_values, credit_card.reversed.
  rewrite <- fmap_reverse, imap_fmap. cbn. done.
Qed.

Lemma length_digit_values (number : string) :
  length (digit_values number)
  = String.length (credit_card.digits_only number).
Proof. unfold digit_values. by rewrite length_fmap, length_list_ascii. Qed.

(** The code's [luhn_check] accepts exactly the numbers that are valid in
    the specification's words. *)
Lemma luhn_check_spec (number : string) :
  credit_card.luhn_check number = true <-> luhn_valid_spec number.
Proof.
  unfold credit_card.luhn_check, luhn_valid_spec.
  rewrite luhn_loop_spec, length_digit_values.
  destruct (String.eqb_spec (credit_card.digits_only number) "") as [->|Hne].
  { cbn. split; [done | lia]. }
  cbn [orb].
  destruct (Nat.ltb_spec (String.length (credit_card.digits_only number)) 13).
  { cbn. split; [done | lia]. }
  destruct (Nat.ltb_spec 19 (String.length (credit_card.digits_only number))).
  { cbn. split; [done | lia]. }
  cbn [orb]. rewrite Z.eqb_eq.
  split; [intros ?; split; [lia | done] | by intros [_ ?]].
Qed.

Lemma credit_hit_valid_pan (text : string) (fv fk : list string) :
  (credit_card.is_credit_card text fv fk).1 = true ->
  existsb credit_card.luhn_check (credit_card.extract_card_numbers text) = true.
Proof.
  unfold credit_card.is_credit_card.
  destruct (_ && negb _); [discriminate|].
  cbn [fst]. by intros [? _]%andb_true_iff.
Qed.

(** C2.  The credit-card detector fires only if one of the candidate numbers
    extracted from the text has 13 to 19 digits and passes the Luhn checksum
    as the specification words it.  So when no candidate of a document's
    haystack passes [luhn_check], [classify] does not return CREDIT_CARD
    (the default type being another one), whatever issuer name or expiry
    date the text shows. *)
Theorem credit_card_needs_luhn :
  (forall text field_values field_keys,
     (credit_card.is_credit_card text field_values field_keys).1 = true ->
     exists number,
       number ∈ credit_card.extract_card_numbers text
       /\ luhn_valid_spec number)
  /\ (forall ocr_text fields hint default_type,
        existsb credit_card.luhn_check
          (credit_card.extract_card_numbers (hay_of ocr_text fields)) = false ->
        default_type <> CREDIT_CARD ->
        doc_type
          (ClassificationService.classify ocr_text fields hint default_type)
        <> CREDIT_CARD).
Proof.
  split.
  - intros text fv fk Hhit.
    apply credit_hit_valid_pan, existsb_exists in Hhit as [number [Hin Hok]].
    exists number. split; [by apply list_elem_of_In | by apply luhn_check_spec].
  - intros ocr_text fields hint default_type Hnone Hdef.
    rewrite doc_type_classify.
    destruct (credit_card.is_credit_card _ _ _).1 eqn:Hcc.
    + apply credit_hit_valid_pan in Hcc. congruence.
    + repeat case_match; done.
Qed.

(** A Luhn-valid card is found with its number; the card of the test suite,
    whose 16 digits fail the checksum, is not a credit card although "visa"
    and the expiry 12/27 are there. *)
Lemma credit_card_needs_luhn_witness :
  (exists number,
     number ∈ credit_card.extract_card_numbers
                ("visa" +:+ nl +:+ "4111 1111 1111 1111" +:+ nl +:+ "12/27")
     /\ luhn_valid_spec number)
  /\ (let ocr_text := "VISA" +:+ nl +:+ "4532 1234 5678 9012" +:+ nl
                      +:+ "VALID THRU: 12/27" +:+ nl +:+ "JOHN DOE" in
      any_in credit_card.issuer_names (hay_of ocr_text None) = true
      /\ Re.found false credit_card.expiry_pattern (hay_of ocr_text None) = true
      /\ credit_card.extract_card_numbers (hay_of ocr_text None)
         = ["4532 1234 5678 9012"]
      /\ doc_type (ClassificationService.classify ocr_text None None GENERIC)
         <> CREDIT_CARD).
Proof.
  split.
  - apply (proj1 credit_card_needs_luhn _ [] []). by vm_compute.
  - do 3 (split; [by vm_compute|]).
    apply (proj2 credit_card_needs_luhn); [by vm_compute | done].
Defined.

(** ** Field extraction *)

(** The loop of [_refine_fields_by_type] maps every field to its refined
    form, in order. *)
Lemma refine_fields_map (fields : list FieldModel) (document_type : DocumentType)
    (text : string) :
  ExtractionService._refine_fields_by_type fields document_type text
  = ExtractionService.refine_one document_type <$> fields.
Proof.
  unfold ExtractionService._refine_fields_by_type.
  enough (H : forall acc,
             foldl (fun refined field =>
                      refined ++ [ExtractionService.refine_one document_type field])
               acc fields
             = acc ++ (ExtractionService.refine_one document_type <$> fields))
    by apply (H []).
  induction fields as [|f fields IH]; intros acc; cbn [foldl fmap list_fmap].
  - by rewrite app_nil_r.
  - by rewrite IH, <- app_assoc.
Qed.

(** The first pattern of the list that matches decides the loop. *)
Lemma first_match_first (patterns : list Re.regex) (text : string)
    (i : nat) (pattern : Re.regex) (m : Re.rmatch) :
  patterns !! i = Some pattern ->
  Re.search true pattern text = Some m ->
  (forall j earlier,
     j < i -> patterns !! j = Some earlier ->
     Re.search true earlier text = None) ->
  ExtractionService.first_match patterns text = Some m.
Proof.
  revert i. induction patterns as [|p patterns IH]; intros i Hi Hm Hearlier.
  - discriminate Hi.
  - cbn [ExtractionService.first_match]. destruct i as [|i].
    + injection Hi as ->. by rewrite Hm.
    + rewrite (Hearlier 0 p); [|lia|done].
      apply (IH i); [done | done |].
      intros j earlier Hj Hlook. apply (Hearlier (S j)); [lia | done].
Qed.

Lemma extract_fields_promotional (text : string) :
  ExtractionService.extract_fields text PROMOTIONAL
  = (ExtractionService.refine_one PROMOTIONAL
       <$> ExtractionService._extract_pattern_fields text)
    ++ ExtractionService._extract_promotional_fields text.
Proof.
  unfold ExtractionService.extract_fields. by rewrite refine_fields_map.
Qed.

(** C7.  For a PROMOTIONAL document, every Stage-1 field keeps its place in
    the output: a field whose key is "amount" is there as "offer_amount"
    with the original confidence times 0.9 and the same value and source,
    any other field is there unchanged.  When one of the promo-code
    patterns matches the text, the field placed right after them is
    "promo_code", with confidence 0.95 and the group captured by the first
    pattern of the ordered list that matches. *)
Theorem promotional_extraction (text : string) :
  let stage1 := ExtractionService._extract_pattern_fields text in
  let out := ExtractionService.extract_fields text PROMOTIONAL in
  (forall i field,
     stage1 !! i = Some field -> key field = "amount" ->
     out !! i
     = Some {| key := "offer_amount";
               value := value field;
               confidence := (confidence field * 0.9)%float;
               source := source field |})
  /\ (forall i field,
        stage1 !! i = Some field -> key field <> "amount" ->
        out !! i = Some field)
  /\ (forall i pattern m,
        ExtractionService.promo_patterns !! i = Some pattern ->
        Re.search true pattern text = Some m ->
        (forall j earlier,
           j < i -> ExtractionService.promo_patterns !! j = Some earlier ->
           Re.search true earlier text = None) ->
        out !! length stage1
        = Some {| key := "promo_code";
                  value := Re.group m 1;
                  confidence := 0.95%float;
                  source := "pattern" |}).
Proof.
  intros stage1 out. subst out. rewrite extract_fields_promotional.
  fold stage1. split; [|split].
  - intros i field Hi Hkey.
    rewrite lookup_app_l by (rewrite length_fmap; by eapply lookup_lt_Some).
    rewrite list_lookup_fmap, Hi. cbn.
    unfold ExtractionService.refine_one. by rewrite Hkey.
  - intros i field Hi Hkey.
    rewrite lookup_app_l by (rewrite length_fmap; by eapply lookup_lt_Some).
    rewrite list_lookup_fmap, Hi. cbn.
    unfold ExtractionService.refine_one.
    by destruct (String.eqb_spec (key field) "amount").
  - intros i pattern m Hi Hm Hearlier.
    rewrite lookup_app_r by (by rewrite length_fmap).
    rewrite length_fmap, Nat.sub_diag.
    unfold ExtractionService._extract_promotional_fields,
      ExtractionService.first_field.
    by rewrite (first_match_first _ _ _ _ _ Hi Hm Hearlier).
Qed.

(** The mailer of the specification: "$50" becomes an offer amount of
    confidence 0.85 * 0.9, the date is kept, and the code is found by the
    first pattern. *)
Lemma promotional_extraction_witness :
  let text := "Get $50 when you open an account by 12/12/2025. "
              +:+ "Use promo code Offer25." in
  let out := ExtractionService.extract_fields text PROMOTIONAL in
  out !! 0 = Some {| key := "offer_amount"; value := "$50";
                     confidence := (0.85 * 0.9)%float; source := "pattern" |}
  /\ out !! 1 = Some {| key := "date"; value := "12/12/2025";
                        confidence := 0.90%float; source := "pattern" |}
  /\ out !! 2 = Some {| key := "promo_code"; value := "Offer25";
                        confidence := 0.95%float; source := "pattern" |}.
Proof.
  intros text out.
  destruct (promotional_extraction text) as [Hamount [Hother Hcode]].
  split; [|split].
  - by apply (Hamount 0 (ExtractionService.pattern_field "amount" "$50" 0.85%float)).
  - apply (Hother 1); [by vm_compute | done].
  - refine (Hcode 0 _ {| Re.whole := "promo code Offer25";
                         Re.groups := [(1, "Offer25")] |} eq_refl _ _).
    + by vm_compute.
    + intros j earlier Hj. lia.
Defined.

(** ** End to end *)

(** C9.  The CVS receipt of the specification is classified RECEIPT with a
    confidence of at least 0.85 (it is 0.95, by the strong tier), the signal
    report says receipt and not promotional, and extraction with type
    RECEIPT returns, after the two amounts of Stage 1, the transaction
    number "456" and the total "$12.99". *)
Theorem cvs_receipt_end_to_end :
  let text := "CVS Pharmacy" +:+ nl +:+ "Receipt #456" +:+ nl
              +:+ "ADVIL $12.99" +:+ nl +:+ "Total: $12.99" +:+ nl
              +:+ "VISA ****1234" in
  let r := ClassificationService.classify text None None GENERIC in
  let out := ExtractionService.extract_fields text RECEIPT in
  doc_type r = RECEIPT
  /\ (0.85 <=? conf r)%float = true
  /\ sig_receipt (signals r) = true
  /\ sig_promotional (signals r) = false
  /\ ExtractionService.pattern_field "transaction_id" "456" 0.95%float ∈ out
  /\ ExtractionService.pattern_field "total_amount" "$12.99" 0.95%float ∈ out
  /\ out = [ExtractionService.pattern_field "amount" "$12.99" 0.85%float;
            ExtractionService.pattern_field "amount" "$12.99" 0.85%float;
            ExtractionService.pattern_field "transaction_id" "456" 0.95%float;
            ExtractionService.pattern_field "total_amount" "$12.99" 0.95%float].
Proof.
  intros text r out.
  assert (Hout : out
                 = [ExtractionService.pattern_field "amount" "$12.99" 0.85%float;
                    ExtractionService.pattern_field "amount" "$12.99" 0.85%float;
                    ExtractionService.pattern_field "transaction_id" "456" 0.95%float;
                    ExtractionService.pattern_field "total_amount" "$12.99" 0.95%float])
    by (by vm_compute).
  do 4 (split; [by vm_compute|]).
  rewrite Hout. repeat split; set_solver.
Qed.

(** * Further properties of the orchestrator *)

Lemma float_neq (x y pivot : float) :
  (x <=? pivot)%float <> (y <=? pivot)%float -> x <> y.
Proof. intros H ->. by apply H. Qed.

Lemma calc_confidence_from_two (n max_signals : Z) :
  (2 <= n)%Z ->
  In (ClassificationService._calculate_confidence n max_signals)
     [0.75; 0.85; 0.95]%float.
Proof.
  intros Hn. unfold ClassificationService._calculate_confidence.
  destruct (Z.leb_spec max_signals n); [cbn; auto|].
  destruct (Z.leb_spec (max_signals - 1) n); [cbn; auto|].
  destruct (Z.leb_spec 2 n); [cbn; auto | lia].
Qed.

Lemma promotional_count (text : string) :
  get_int (promotional.is_promotional text).2 "signal_count"
  = sum_bools (promotional_signals text).
Proof.
  unfold promotional.is_promotional, promotional_signals. cbn [snd].
  generalize (any_in promotional.incentive_verbs text),
    (any_in promotional.conditionals text),
    (any_in promotional.promo_terms text),
    (any_in promotional.urgency text), (any_in promotional.ctas text).
  intros b1 b2 b3 b4 b5. generalize (sum_bools [b1; b2; b3; b4; b5]).
  reflexivity.
Qed.

(** What the insurance detector reports when no anti-pattern is there. *)
Lemma insurance_report (text : string) (field_keys : list string) :
  any_in insurance.anti_patterns text = false ->
  let count :=
    sum_bools [any_in insurance.card_indicators text;
               any_in insurance.insurance_terms text;
               any_in insurance.network_terms text;
               any_in insurance.known_insurers text] in
  let rx := str_in "rx bin" text || str_in "rxbin" text in
  (insurance.is_insurance_card text field_keys).1 = (2 <=? count)%Z || rx
  /\ get_int (insurance.is_insurance_card text field_keys).2 "signal_count"
     = count
  /\ truthy ((insurance.is_insurance_card text field_keys).2 !! "has_rx_bin")
     = rx.
Proof.
  intros Hanti count rx. subst count rx. unfold insurance.is_insurance_card.
  rewrite Hanti. cbn [fst snd]. split; [done|].
  generalize (any_in insurance.card_indicators text),
    (any_in insurance.insurance_terms text),
    (any_in insurance.network_terms text),
    (any_in insurance.known_insurers text),
    (str_in "rx bin" text || str_in "rxbin" text).
  intros b1 b2 b3 b4 b5. generalize (sum_bools [b1; b2; b3; b4]).
  intros n. split; reflexivity.
Qed.

Lemma insurance_anti_pattern (text : string) (field_keys : list string) :
  any_in insurance.anti_patterns text = true ->
  (insurance.is_insurance_card text field_keys).1 = false.
Proof. intros H. unfold insurance.is_insurance_card. by rewrite H. Qed.

Lemma receipt_vetoed (text : string) (field_keys : list string) :
  (receipt.is_receipt text field_keys true).1 = false.
Proof. reflexivity. Qed.

Lemma letter_vetoed (text : string) : (letter.is_letter text true).1 = false.
Proof. reflexivity. Qed.

(** Either nothing fired and the confidence is 0.3, or a detector fired and
    the confidence is one of six higher values. *)
Lemma conf_cases
    (ocr_text : string) (fields : option (list FieldModel))
    (hint : option DocumentType) (default_type : DocumentType) :
  let r := ClassificationService.classify ocr_text fields hint default_type in
  (no_signal (signals r) = true /\ conf r = 0.3%float)
  \/ (no_signal (signals r) = false
      /\ In (conf r) [0.70; 0.75; 0.80; 0.85; 0.9; 0.95]%float).
Proof.
  intros r. subst r. unfold no_signal.
  destruct (signals_classify ocr_text fields hint default_type)
    as (-> & -> & -> & -> & -> & ->).
  rewrite conf_classify.
  destruct (promotional.is_promotional _).1 eqn:Hp.
  { right. split; [done|].
    rewrite promotional_count. rewrite is_promotional_hit in Hp.
    apply Z.leb_le, (calc_confidence_from_two _ 5) in Hp.
    revert Hp. generalize (ClassificationService._calculate_confidence
                             (sum_bools (promotional_signals (hay_of ocr_text fields))) 5).
    intros c Hc. cbn in Hc |- *. intuition. }
  destruct (insurance.is_insurance_card _ _).1 eqn:Hi.
  { right. split; [done|].
    destruct (any_in insurance.anti_patterns (hay_of ocr_text fields))
      eqn:Hanti.
    { by rewrite insurance_anti_pattern in Hi. }
    destruct (insurance_report _ (keys_of fields) Hanti) as (Hh & Hc & Hr).
    rewrite Hr, Hc. rewrite Hh in Hi.
    destruct (str_in "rx bin" _ || str_in "rxbin" _) eqn:Hrx;
      [cbn; auto 10|].
    rewrite orb_false_r in Hi.
    apply Z.leb_le, (calc_confidence_from_two _ 4) in Hi.
    revert Hi. generalize (ClassificationService._calculate_confidence
      (sum_bools
         [any_in insurance.card_indicators (hay_of ocr_text fields);
          any_in insurance.insurance_terms (hay_of ocr_text fields);
          any_in insurance.network_terms (hay_of ocr_text fields);
          any_in insurance.known_insurers (hay_of ocr_text fields)]) 4).
    intros c Hin. cbn in Hin |- *. intuition. }
  destruct (credit_card.is_credit_card _ _ _).1;
    [right; split; [done | case_match; cbn; auto 10]|].
  destruct (receipt.is_receipt _ _ _).1;
    [right; split; [done | repeat case_match; cbn; auto 10]|].
  destruct (bill.is_bill_statement _).1;
    [right; split; [done | case_match; cbn; auto 10]|].
  destruct (letter.is_letter _ _).1;
    [right; split; [done | cbn; auto 10]|].
  by left.
Qed.

(** X1.  The confidence [classify] returns is one of seven values, all
    between 0 and 1 as the response models require; the lowest band of
    [_calculate_confidence], 0.60, is never returned, because a winning
    promotional or insurance detector has counted at least two categories
    or found the RX BIN. *)
Theorem classify_confidence_values
    (ocr_text : string) (fields : option (list FieldModel))
    (hint : option DocumentType) (default_type : DocumentType) :
  let c :=
    conf (ClassificationService.classify ocr_text fields hint default_type) in
  In c [0.3; 0.70; 0.75; 0.80; 0.85; 0.9; 0.95]%float
  /\ (0 <=? c)%float = true
  /\ (c <=? 1)%float = true.
Proof.
  intros c.
  assert (Hin : In c [0.3; 0.70; 0.75; 0.80; 0.85; 0.9; 0.95]%float).
  { subst c.
    destruct (conf_cases ocr_text fields hint default_type)
      as [[_ ->] | [_ Hin]]; [by left | by right]. }
  split; [exact Hin|].
  cbn in Hin. by repeat destruct Hin as [<- | Hin].
Qed.

(** X2.  The signal report never shows a promotional document as a receipt
    or as a letter: once the promotional detector fires, both detectors are
    vetoed. *)
Theorem promotional_veto_in_report
    (ocr_text : string) (fields : option (list FieldModel))
    (hint : option DocumentType) (default_type : DocumentType) :
  let s :=
    signals (ClassificationService.classify ocr_text fields hint default_type)
  in
  sig_promotional s = true -> sig_receipt s = false /\ sig_letter s = false.
Proof.
  intros s. subst s.
  destruct (signals_classify ocr_text fields hint default_type)
    as (-> & -> & _ & _ & _ & ->).
  intros ->. by rewrite receipt_vetoed, letter_vetoed.
Qed.

Lemma promotional_veto_in_report_witness :
  let s :=
    signals (ClassificationService.classify
               "Dear customer, receipt #9 paid with visa. Free gift if you call. Regards"
               None None GENERIC) in
  sig_receipt s = false /\ sig_letter s = false.
Proof. apply promotional_veto_in_report. by vm_compute. Defined.

(** X3.  The type [classify] returns is backed by the report: either the
    flag of that type is set, or no detector fired at all and the result is
    the default type with confidence 0.3.  In particular GENERIC is never
    the outcome of a detector. *)
Theorem classify_type_is_signalled
    (ocr_text : string) (fields : option (list FieldModel))
    (hint : option DocumentType) (default_type : DocumentType) :
  let r := ClassificationService.classify ocr_text fields hint default_type in
  signal_of (doc_type r) (signals r) = true
  \/ (no_signal (signals r) = true
      /\ doc_type r = default_type
      /\ conf r = 0.3%float).
Proof.
  intros r. subst r. unfold no_signal.
  destruct (signals_classify ocr_text fields hint default_type)
    as (Hp & Hr & Hb & Hi & Hc & Hl).
  rewrite doc_type_classify, conf_classify.
  destruct (promotional.is_promotional _).1 eqn:Ep; [by left|].
  destruct (insurance.is_insurance_card _ _).1 eqn:Ei; [by left|].
  destruct (credit_card.is_credit_card _ _ _).1 eqn:Ec; [by left|].
  destruct (receipt.is_receipt _ _ _).1 eqn:Er; [by left|].
  destruct (bill.is_bill_statement _).1 eqn:Eb; [by left|].
  destruct (letter.is_letter _ _).1 eqn:El; [by left|].
  right. by rewrite Hp, Hr, Hb, Hi, Hc, Hl.
Qed.

(** X4.  The confidence is 0.3 exactly when no detector fired: a caller can
    tell the fallback from a detected type by the confidence alone, also
    when the default type is one a detector could have produced. *)
Theorem fallback_iff_low_confidence
    (ocr_text : string) (fields : option (list FieldModel))
    (hint : option DocumentType) (default_type : DocumentType) :
  let r := ClassificationService.classify ocr_text fields hint default_type in
  conf r = 0.3%float <-> no_signal (signals r) = true.
Proof.
  intros r. subst r.
  destruct (conf_cases ocr_text fields hint default_type)
    as [[Hno Hc] | [Hno Hin]]; [by split|].
  rewrite Hno. split; [|discriminate]. intros Hc. exfalso.
  rewrite Hc in Hin. cbn in Hin.
  repeat destruct Hin as [Hin | Hin]; try done;
    by apply (float_neq _ _ 0.5%float) in Hin.
Qed.

(** X5.  [classify] reads the text through [lower] only, and the supplied
    fields through their lower-cased keys and values only: two calls whose
    texts agree up to case, and whose fields agree in those two respects
    (whatever their confidence and source, and an absent list counting as
    an empty one), return the same result. *)
Theorem classify_reads_lowercase
    (text1 text2 : string) (fields1 fields2 : option (list FieldModel))
    (hint1 hint2 : option DocumentType) (default_type : DocumentType) :
  lower text1 = lower text2 ->
  keys_of fields1 = keys_of fields2 ->
  values_of fields1 = values_of fields2 ->
  ClassificationService.classify text1 fields1 hint1 default_type
  = ClassificationService.classify text2 fields2 hint2 default_type.
Proof.
  intros Ht Hk Hv.
  unfold ClassificationService.classify, ClassificationService.haystack.
  fold (keys_of fields1) (keys_of fields2).
  fold (values_of fields1) (values_of fields2).
  by rewrite Ht, Hk, Hv.
Qed.

Lemma classify_reads_lowercase_witness :
  ClassificationService.classify "RECEIPT #12 PAID WITH VISA"
    (Some []) (Some LETTER) GENERIC
  = ClassificationService.classify "Receipt #12 paid with Visa"
      None None GENERIC.
Proof. by apply classify_reads_lowercase. Defined.

Lemma str_in_app_r (needle a b : string) :
  str_in needle b = true -> str_in needle (a +:+ b) = true.
Proof.
  rewrite !str_in_spec. intros [l [r ->]].
  exists (a +:+ l), r. by rewrite !append_assoc.
Qed.

Lemma str_in_join (needle sep part : string) (parts : list string) :
  part ∈ parts ->
  str_in needle part = true -> str_in needle (join sep parts) = true.
Proof.
  intros Hin Hpart. induction parts as [|p parts IH]; [by inversion Hin|].
  cbn [join]. destruct parts as [|q parts].
  - apply list_elem_of_singleton in Hin as ->. done.
  - apply elem_of_cons in Hin as [-> | Hin].
    + by apply str_in_app_l.
    + by apply str_in_app_r, str_in_app_r, IH.
Qed.

(** X6.  The values of the supplied fields are searched like the text: a
    lower-case phrase that occurs in a field value, in any case, occurs in
    the haystack the detectors read. *)
Theorem field_values_are_searched
    (needle ocr_text : string) (fields : list FieldModel) (field : FieldModel) :
  field ∈ fields ->
  lower needle = needle ->
  str_in needle (lower (value field)) = true ->
  str_in needle (ClassificationService.haystack ocr_text fields) = true.
Proof.
  intros Hin Hn Hv. unfold ClassificationService.haystack.
  apply str_in_lower; [done|]. do 2 apply str_in_app_r.
  apply (str_in_join _ _ (lower (value field))); [|done].
  apply list_elem_of_fmap. by exists field.
Qed.

Lemma field_values_are_searched_witness :
  str_in "rx bin"
    (ClassificationService.haystack "Group: 12345"
       [{| key := "pharmacy"; value := "RX BIN: 004336";
           confidence := 0.5%float; source := "ocr" |}]) = true.
Proof.
  eapply field_values_are_searched; [by apply list_elem_of_singleton | done | by vm_compute].
Defined.

(** X7.  An insurance anti-pattern in the haystack vetoes the insurance
    card: the report does not flag it and [classify] does not return
    INSURANCE_CARD (the default type being another one), whatever member
    IDs, insurer names or RX BIN the text shows. *)
Theorem insurance_anti_pattern_veto
    (ocr_text : string) (fields : option (list FieldModel))
    (hint : option DocumentType) (default_type : DocumentType) :
  any_in insurance.anti_patterns (hay_of ocr_text fields) = true ->
  let r := ClassificationService.classify ocr_text fields hint default_type in
  sig_insurance_card (signals r) = false
  /\ (default_type <> INSURANCE_CARD -> doc_type r <> INSURANCE_CARD).
Proof.
  intros Hanti r. subst r.
  destruct (signals_classify ocr_text fields hint default_type)
    as (_ & _ & _ & -> & _ & _).
  rewrite doc_type_classify, (insurance_anti_pattern _ _ Hanti).
  split; [done|]. intros Hdef. repeat case_match; done.
Qed.

Lemma insurance_anti_pattern_veto_witness :
  let r := ClassificationService.classify
             ("This is not an insurance card." +:+ nl
              +:+ "Premera Blue Cross Member ID: ABC123 RX BIN: 004336")
             None None GENERIC in
  sig_insurance_card (signals r) = false
  /\ (GENERIC <> INSURANCE_CARD -> doc_type r <> INSURANCE_CARD).
Proof. apply insurance_anti_pattern_veto. by vm_compute. Defined.

(** What the bill detector reports. *)
Lemma bill_report (text : string) :
  let billing := any_in bill.billing_terms text in
  let due := any_in bill.payment_due text in
  (bill.is_bill_statement text).1
  = billing
    || due && (any_in bill.invoice_terms text
               || any_in bill.service_terms text
               || any_in bill.account_terms text)
  /\ truthy ((bill.is_bill_statement text).2 !! "has_billing_term") = billing.
Proof.
  unfold bill.is_bill_statement.
  destruct (any_in bill.billing_terms text), (any_in bill.payment_due text),
    (any_in bill.invoice_terms text), (any_in bill.service_terms text),
    (any_in bill.account_terms text); split; reflexivity.
Qed.

(** X8.  The phrase "billing statement" is both a billing term and an
    insurance anti-pattern: a document whose haystack has it is flagged as a
    bill and never as an insurance card, and it is classified
    BILL_STATEMENT with confidence 0.9 unless the promotional, credit-card
    or receipt detector fires. *)
Theorem billing_statement_phrase
    (ocr_text : string) (fields : option (list FieldModel))
    (hint : option DocumentType) (default_type : DocumentType) :
  str_in "billing statement" (hay_of ocr_text fields) = true ->
  let r := ClassificationService.classify ocr_text fields hint default_type in
  sig_bill (signals r) = true
  /\ sig_insurance_card (signals r) = false
  /\ (sig_promotional (signals r) = false ->
      sig_credit_card (signals r) = false ->
      sig_receipt (signals r) = false ->
      doc_type r = BILL_STATEMENT /\ conf r = 0.9%float).
Proof.
  intros Hphrase r. subst r.
  assert (Hbilling : any_in bill.billing_terms (hay_of ocr_text fields) = true).
  { apply (any_in_true _ "billing statement"); [set_solver | done]. }
  assert (Hanti : any_in insurance.anti_patterns (hay_of ocr_text fields) = true).
  { apply (any_in_true _ "billing statement"); [set_solver | done]. }
  destruct (bill_report (hay_of ocr_text fields)) as [Hhit Hterm].
  rewrite Hbilling in Hhit, Hterm. cbn [orb] in Hhit.
  destruct (signals_classify ocr_text fields hint default_type)
    as (-> & -> & -> & -> & -> & _).
  rewrite doc_type_classify, conf_classify.
  rewrite (insurance_anti_pattern _ _ Hanti), Hhit, Hterm.
  split; [done|]. split; [done|]. by intros -> -> ->.
Qed.

Lemma billing_statement_phrase_witness :
  let r := ClassificationService.classify
             ("Electric Company" +:+ nl +:+ "Billing Statement" +:+ nl
              +:+ "Member ID 77, Aetna PPO")
             None None GENERIC in
  sig_bill (signals r) = true
  /\ sig_insurance_card (signals r) = false
  /\ (sig_promotional (signals r) = false ->
      sig_credit_card (signals r) = false ->
      sig_receipt (signals r) = false ->
      doc_type r = BILL_STATEMENT /\ conf r = 0.9%float).
Proof. apply billing_statement_phrase. by vm_compute. Defined.

(** ** What a returned type says about the text *)

Lemma receipt_report (text : string) (field_keys : list string) :
  let strong :=
    any_in receipt.transaction_patterns text && has_payment_method text in
  let medium :=
    any_in receipt.merchant_indicators text && has_payment_method text in
  let weak :=
    any_in receipt.receipt_keywords text
    && any_in receipt.payment_complete_words text
    && (3 <=? receipt.count_amounts text)%nat in
  let rc := receipt.is_receipt text field_keys false in
  rc.1 = strong || medium || weak
  /\ ClassificationService.rule_is rc.2 "strong_transaction" = strong
  /\ ClassificationService.rule_is rc.2 "merchant_payment"
     = negb strong && medium.
Proof.
  unfold receipt.is_receipt, has_payment_method.
  generalize (receipt.count_amounts text). intros n.
  destruct (any_in receipt.transaction_patterns text),
    (any_in receipt.card_types text || any_in receipt.payment_indicators text
     || any_in receipt.cash_indicators text),
    (any_in receipt.merchant_indicators text),
    (any_in receipt.receipt_keywords text),
    (any_in receipt.payment_complete_words text), (3 <=? n)%nat;
    repeat split; reflexivity.
Qed.

(** X9.  When [classify] returns RECEIPT through the receipt detector, the
    haystack shows one of three things, and the confidence tells which: a
    transaction ID with a payment method (0.95); a merchant indicator with a
    payment method and no transaction ID (0.85); or a receipt word, a
    payment-completion word and at least three dollar amounts (0.70). *)
Theorem receipt_result_explained
    (ocr_text : string) (fields : option (list FieldModel))
    (hint : option DocumentType) (default_type : DocumentType) :
  let r := ClassificationService.classify ocr_text fields hint default_type in
  let hay := hay_of ocr_text fields in
  doc_type r = RECEIPT ->
  default_type <> RECEIPT ->
  (any_in receipt.transaction_patterns hay = true
   /\ has_payment_method hay = true /\ conf r = 0.95%float)
  \/ (any_in receipt.transaction_patterns hay = false
      /\ any_in receipt.merchant_indicators hay = true
      /\ has_payment_method hay = true /\ conf r = 0.85%float)
  \/ (any_in receipt.receipt_keywords hay = true
      /\ any_in receipt.payment_complete_words hay = true
      /\ 3 <= receipt.count_amounts hay
      /\ conf r = 0.70%float).
Proof.
  intros r hay. subst r hay. rewrite doc_type_classify, conf_classify.
  destruct (promotional.is_promotional _).1; [discriminate|].
  destruct (insurance.is_insurance_card _ _).1; [discriminate|].
  destruct (credit_card.is_credit_card _ _ _).1; [discriminate|].
  destruct (receipt_report (hay_of ocr_text fields) (keys_of fields))
    as (Hhit & Hstrong & Hmedium).
  rewrite Hstrong, Hmedium.
  destruct (receipt.is_receipt _ _ _).1;
    [|intros; repeat case_match; congruence].
  intros _ _. symmetry in Hhit.
  destruct (any_in receipt.transaction_patterns _),
    (has_payment_method _), (any_in receipt.merchant_indicators _);
    cbn [andb orb negb] in Hhit |- *; auto 10;
    apply andb_true_iff in Hhit as [[? ?]%andb_true_iff Hn];
    apply Nat.leb_le in Hn; auto 10.
Qed.

(** A receipt of the weak tier: "change due" completes the payment but is
    no payment method. *)
Lemma receipt_result_explained_witness :
  let ocr_text := "Thank you for shopping! Items $4.00, paid $5.00, change due $1.00" in
  let r := ClassificationService.classify ocr_text None None GENERIC in
  let hay := hay_of ocr_text None in
  (any_in receipt.transaction_patterns hay = true
   /\ has_payment_method hay = true /\ conf r = 0.95%float)
  \/ (any_in receipt.transaction_patterns hay = false
      /\ any_in receipt.merchant_indicators hay = true
      /\ has_payment_method hay = true /\ conf r = 0.85%float)
  \/ (any_in receipt.receipt_keywords hay = true
      /\ any_in receipt.payment_complete_words hay = true
      /\ 3 <= receipt.count_amounts hay
      /\ conf r = 0.70%float).
Proof. apply receipt_result_explained; [by vm_compute | done]. Defined.

(** X10.  When [classify] returns BILL_STATEMENT through the bill detector,
    the haystack has a billing term and the confidence is 0.9, or it has no
    billing term but a payment-due term together with an invoice, service
    or account term, and the confidence is 0.75. *)
Theorem bill_result_explained
    (ocr_text : string) (fields : option (list FieldModel))
    (hint : option DocumentType) (default_type : DocumentType) :
  let r := ClassificationService.classify ocr_text fields hint default_type in
  let hay := hay_of ocr_text fields in
  doc_type r = BILL_STATEMENT ->
  default_type <> BILL_STATEMENT ->
  (any_in bill.billing_terms hay = true /\ conf r = 0.9%float)
  \/ (any_in bill.billing_terms hay = false
      /\ any_in bill.payment_due hay = true
      /\ (any_in bill.invoice_terms hay || any_in bill.service_terms hay
          || any_in bill.account_terms hay) = true
      /\ conf r = 0.75%float).
Proof.
  intros r hay. subst r hay. rewrite doc_type_classify, conf_classify.
  destruct (promotional.is_promotional _).1; [discriminate|].
  destruct (insurance.is_insurance_card _ _).1; [discriminate|].
  destruct (credit_card.is_credit_card _ _ _).1; [discriminate|].
  destruct (receipt.is_receipt _ _ _).1; [discriminate|].
  destruct (bill_report (hay_of ocr_text fields)) as [Hhit Hterm].
  rewrite Hterm.
  destruct (bill.is_bill_statement _).1;
    [|intros; repeat case_match; congruence].
  intros _ _. symmetry in Hhit.
  destruct (any_in bill.billing_terms _); [by left | right].
  cbn [orb] in Hhit. by apply andb_true_iff in Hhit as [-> ->].
Qed.

Lemma bill_result_explained_witness :
  let r := ClassificationService.classify
             "Usage 850 kWh. Amount due: $102.87" None None GENERIC in
  let hay := hay_of "Usage 850 kWh. Amount due: $102.87" None in
  (any_in bill.billing_terms hay = true /\ conf r = 0.9%float)
  \/ (any_in bill.billing_terms hay = false
      /\ any_in bill.payment_due hay = true
      /\ (any_in bill.invoice_terms hay || any_in bill.service_terms hay
          || any_in bill.account_terms hay) = true
      /\ conf r = 0.75%float).
Proof. apply bill_result_explained; [by vm_compute | done]. Defined.

(** What the credit-card detector reports when it fires. *)
Lemma credit_report (text : string) (fv fk : list string) :
  (credit_card.is_credit_card text fv fk).1 = true ->
  (any_in credit_card.issuer_names text
   || Re.found false credit_card.expiry_pattern text
   || existsb credit_card.is_card_key fk
   || any_in credit_card.card_type_keywords text) = true
  /\ truthy ((credit_card.is_credit_card text fv fk).2 !! "has_issuer_name")
     = any_in credit_card.issuer_names text.
Proof.
  unfold credit_card.is_credit_card.
  destruct (_ && negb _); [discriminate|]. cbn [fst snd].
  intros [_ Hctx]%andb_true_iff. split; [exact Hctx|].
  generalize (existsb credit_card.luhn_check
                (credit_card.extract_card_numbers text)),
    (any_in credit_card.issuer_names text),
    (Re.found false credit_card.expiry_pattern text),
    (existsb credit_card.is_card_key fk),
    (any_in credit_card.card_type_keywords text),
    (any_in credit_card.non_payment_card_terms text).
  reflexivity.
Qed.

(** X11.  A Luhn-valid number alone is no credit card.  When [classify]
    returns CREDIT_CARD through the detector, the haystack also has strong
    context: an issuer name, an MM/YY expiry, a card keyword, or a supplied
    field whose key names a card number; and the confidence is 0.9 with an
    issuer name and 0.75 without. *)
Theorem credit_card_result_explained
    (ocr_text : string) (fields : option (list FieldModel))
    (hint : option DocumentType) (default_type : DocumentType) :
  let r := ClassificationService.classify ocr_text fields hint default_type in
  let hay := hay_of ocr_text fields in
  doc_type r = CREDIT_CARD ->
  default_type <> CREDIT_CARD ->
  (any_in credit_card.issuer_names hay
   || Re.found false credit_card.expiry_pattern hay
   || existsb credit_card.is_card_key (keys_of fields)
   || any_in credit_card.card_type_keywords hay) = true
  /\ conf r = if any_in credit_card.issuer_names hay then 0.9%float
              else 0.75%float.
Proof.
  intros r hay. subst r hay. rewrite doc_type_classify, conf_classify.
  destruct (promotional.is_promotional _).1; [discriminate|].
  destruct (insurance.is_insurance_card _ _).1; [discriminate|].
  destruct (credit_card.is_credit_card _ _ _).1 eqn:Hcc;
    [|intros; repeat case_match; congruence].
  intros _ _. destruct (credit_report _ _ _ Hcc) as [Hctx Hiss].
  by rewrite Hiss.
Qed.

(** A card recognised through the key of a supplied field only. *)
Lemma credit_card_result_explained_witness :
  let fields :=
    Some [{| key := "Card Number"; value := "4111 1111 1111 1111";
             confidence := 0.9%float; source := "ocr" |}] in
  let r := ClassificationService.classify "JOHN DOE" fields None GENERIC in
  let hay := hay_of "JOHN DOE" fields in
  (any_in credit_card.issuer_names hay
   || Re.found false credit_card.expiry_pattern hay
   || existsb credit_card.is_card_key (keys_of fields)
   || any_in credit_card.card_type_keywords hay) = true
  /\ conf r = if any_in credit_card.issuer_names hay then 0.9%float
              else 0.75%float.
Proof. apply credit_card_result_explained; [by vm_compute | done]. Defined.

(** X12.  LETTER is the last resort.  When [classify] returns LETTER through
    the letter detector, the haystack has a salutation and a closing, no
    other detector fired, and the confidence is 0.80. *)
Theorem letter_result_explained
    (ocr_text : string) (fields : option (list FieldModel))
    (hint : option DocumentType) (default_type : DocumentType) :
  let r := ClassificationService.classify ocr_text fields hint default_type in
  let hay := hay_of ocr_text fields in
  doc_type r = LETTER ->
  default_type <> LETTER ->
  any_in letter.salutations hay = true
  /\ any_in letter.closings hay = true
  /\ conf r = 0.80%float
  /\ sig_promotional (signals r) = false
  /\ sig_insurance_card (signals r) = false
  /\ sig_credit_card (signals r) = false
  /\ sig_receipt (signals r) = false
  /\ sig_bill (signals r) = false.
Proof.
  intros r hay. subst r hay.
  destruct (signals_classify ocr_text fields hint default_type)
    as (-> & -> & -> & -> & -> & _).
  rewrite doc_type_classify, conf_classify.
  destruct (promotional.is_promotional _).1; [discriminate|].
  destruct (insurance.is_insurance_card _ _).1; [discriminate|].
  destruct (credit_card.is_credit_card _ _ _).1; [discriminate|].
  destruct (receipt.is_receipt _ _ _).1; [discriminate|].
  destruct (bill.is_bill_statement _).1; [discriminate|].
  unfold letter.is_letter. cbn [fst].
  destruct (any_in letter.salutations _), (any_in letter.closings _);
    cbn; intros; try congruence; done.
Qed.

Lemma letter_result_explained_witness :
  let ocr_text := "Dear Sarah," +:+ nl +:+ "see you soon." +:+ nl
                  +:+ "Warm regards, Emily" in
  let r := ClassificationService.classify ocr_text None None GENERIC in
  let hay := hay_of ocr_text None in
  any_in letter.salutations hay = true
  /\ any_in letter.closings hay = true
  /\ conf r = 0.80%float
  /\ sig_promotional (signals r) = false
  /\ sig_insurance_card (signals r) = false
  /\ sig_credit_card (signals r) = false
  /\ sig_receipt (signals r) = false
  /\ sig_bill (signals r) = false.
Proof. apply letter_result_explained; [by vm_compute | done]. Defined.

(** X13.  [_calculate_confidence] is monotone: with the same maximum, more
    matched categories never give a lower confidence. *)
Theorem calculate_confidence_monotone (count1 count2 max_signals : Z) :
  (count1 <= count2)%Z ->
  (ClassificationService._calculate_confidence count1 max_signals
   <=? ClassificationService._calculate_confidence count2 max_signals)%float
  = true.
Proof.
  intros Hle. unfold ClassificationService._calculate_confidence.
  destruct (Z.leb_spec max_signals count1), (Z.leb_spec max_signals count2),
    (Z.leb_spec (max_signals - 1) count1),
    (Z.leb_spec (max_signals - 1) count2),
    (Z.leb_spec 2 count1), (Z.leb_spec 2 count2);
    first [reflexivity | lia].
Qed.

Lemma calculate_confidence_monotone_witness :
  (ClassificationService._calculate_confidence 2 5
   <=? ClassificationService._calculate_confidence 4 5)%float = true.
Proof. apply calculate_confidence_monotone. lia. Defined.

(** ** More on the Luhn check *)

Lemma digits_only_app (a b : string) :
  credit_card.digits_only (a +:+ b)
  = credit_card.digits_only a +:+ credit_card.digits_only b.
Proof.
  induction a as [|c a IH]; [done|].
  rewrite append_cons. cbn [credit_card.digits_only].
  destruct (Re.is_digit c); by rewrite IH.
Qed.

Lemma list_ascii_app (a b : string) :
  list_ascii_of_string (a +:+ b)
  = list_ascii_of_string a ++ list_ascii_of_string b.
Proof.
  induction a as [|c a IH]; [done|].
  rewrite append_cons. cbn. by rewrite IH.
Qed.

Lemma string_length_app (a b : string) :
  String.length (a +:+ b) = String.length a + String.length b.
Proof.
  induction a as [|c a IH]; [done|]. rewrite append_cons. cbn. by rewrite IH.
Qed.

(** X14.  [luhn_check] reads the digits only: a character that is no digit
    (a space, a dash, a letter) can be put anywhere in a number, or taken
    out, without changing the verdict. *)
Theorem luhn_check_ignores_non_digits (a b : string) (c : ascii) :
  Re.is_digit c = false ->
  credit_card.luhn_check (a +:+ String c b) = credit_card.luhn_check (a +:+ b).
Proof.
  intros Hc. unfold credit_card.luhn_check.
  rewrite !digits_only_app. cbn [credit_card.digits_only]. by rewrite Hc.
Qed.

Lemma luhn_check_ignores_non_digits_witness :
  credit_card.luhn_check ("4111" +:+ String "-" "111111111111")
  = credit_card.luhn_check ("4111" +:+ "111111111111").
Proof. by apply luhn_check_ignores_non_digits. Defined.

(** The weight the checksum gives to the digit [c] at index [k] of the
    reversed number. *)
Lemma luhn_double_range (n : Z) :
  (0 <= n <= 9)%Z -> (0 <= luhn_double n <= 9)%Z.
Proof. unfold luhn_double. destruct (Z.ltb_spec 9 (2 * n)); lia. Qed.

Lemma luhn_double_inj (n m : Z) :
  (0 <= n <= 9)%Z -> (0 <= m <= 9)%Z -> luhn_double n = luhn_double m -> n = m.
Proof.
  unfold luhn_double.
  destruct (Z.ltb_spec 9 (2 * n)), (Z.ltb_spec 9 (2 * m)); lia.
Qed.

Lemma int_of_digit_range (c : ascii) :
  Re.is_digit c = true -> (0 <= credit_card.int_of_digit c <= 9)%Z.
Proof.
  unfold Re.is_digit, in_range, credit_card.int_of_digit.
  intros [?%Nat.leb_le ?%Nat.leb_le]%andb_true_iff. lia.
Qed.

Lemma int_of_digit_inj (c c' : ascii) :
  Re.is_digit c = true -> Re.is_digit c' = true ->
  credit_card.int_of_digit c = credit_card.int_of_digit c' -> c = c'.
Proof.
  unfold Re.is_digit, in_range, credit_card.int_of_digit, ord.
  intros [?%Nat.leb_le ?%Nat.leb_le]%andb_true_iff
         [?%Nat.leb_le ?%Nat.leb_le]%andb_true_iff Heq.
  rewrite <- (ascii_nat_embedding c), <- (ascii_nat_embedding c').
  f_equal. lia.
Qed.

Lemma luhn_loop_app (l1 l2 : list ascii) (total : Z) (i : nat) :
  credit_card.luhn_loop total i (l1 ++ l2)
  = credit_card.luhn_loop (credit_card.luhn_loop total i l1)
      (i + length l1) l2.
Proof.
  revert total i. induction l1 as [|x l1 IH]; intros total i; cbn.
  - by rewrite Nat.add_0_r.
  - by rewrite IH, Nat.add_succ_r.
Qed.

Lemma luhn_loop_total (l : list ascii) (total : Z) (i : nat) :
  credit_card.luhn_loop total i l
  = (total + credit_card.luhn_loop 0 i l)%Z.
Proof. rewrite (luhn_loop_sum l total), (luhn_loop_sum l 0%Z). lia. Qed.

(** The sum of the loop splits at any digit: what the other digits add does
    not depend on that digit. *)
Lemma luhn_loop_split (da db : string) :
  exists base : Z,
    forall c : ascii,
      credit_card.luhn_loop 0 0 (credit_card.reversed (da +:+ String c db))
      = (base
         + (if Nat.odd (String.length db)
            then luhn_double (credit_card.int_of_digit c)
            else credit_card.int_of_digit c))%Z.
Proof.
  exists (credit_card.luhn_loop 0 0 (reverse (list_ascii_of_string db))
          + credit_card.luhn_loop 0 (S (String.length db))
              (reverse (list_ascii_of_string da)))%Z.
  intros c. unfold credit_card.reversed.
  rewrite list_ascii_app. cbn [list_ascii_of_string].
  rewrite reverse_app, reverse_cons, <- app_assoc. cbn [app].
  rewrite luhn_loop_app. cbn [credit_card.luhn_loop Nat.add].
  rewrite length_reverse, length_list_ascii.
  rewrite luhn_loop_total, luhn_step_spec. lia.
Qed.

(** X15.  The Luhn check catches every single mistyped digit: if a number is
    accepted, the number obtained by replacing one of its digits by another
    digit is rejected. *)
Theorem luhn_detects_single_digit_error (a b : string) (c c' : ascii) :
  Re.is_digit c = true ->
  Re.is_digit c' = true ->
  c <> c' ->
  credit_card.luhn_check (a +:+ String c b) = true ->
  credit_card.luhn_check (a +:+ String c' b) = false.
Proof.
  intros Hc Hc' Hne. unfold credit_card.luhn_check.
  rewrite !digits_only_app. cbn [credit_card.digits_only]. rewrite Hc, Hc'.
  destruct (luhn_loop_split (credit_card.digits_only a)
              (credit_card.digits_only b)) as [base Hsplit].
  rewrite !Hsplit, !string_length_app. cbn [String.length].
  assert (Hnonempty : forall x,
             (credit_card.digits_only a
              +:+ String x (credit_card.digits_only b) =? "")%string = false).
  { intros x. by destruct (credit_card.digits_only a). }
  rewrite !Hnonempty. cbn [orb].
  destruct (_ <? 13)%nat; [done|]. destruct (19 <? _)%nat; [done|].
  cbn [orb]. rewrite Z.eqb_eq, Z.eqb_neq.
  pose proof (int_of_digit_range _ Hc) as Hr.
  pose proof (int_of_digit_range _ Hc') as Hr'.
  assert (Hd : credit_card.int_of_digit c <> credit_card.int_of_digit c')
    by (intros Heq; by apply Hne, int_of_digit_inj).
  destruct (Nat.odd _).
  - pose proof (luhn_double_range _ Hr). pose proof (luhn_double_range _ Hr').
    assert (luhn_double (credit_card.int_of_digit c)
            <> luhn_double (credit_card.int_of_digit c'))
      by (intros Heq; by apply Hd, luhn_double_inj).
    intros Hsum Hsum'. Z.to_euclidean_division_equations. lia.
  - intros Hsum Hsum'. Z.to_euclidean_division_equations. lia.
Qed.

Lemma luhn_detects_single_digit_error_witness :
  credit_card.luhn_check ("4111 1111 " +:+ String "7" "111 1111") = false.
Proof.
  by apply (luhn_detects_single_digit_error "4111 1111 " "111 1111" "1" "7").
Defined.

(** * Further properties of the extractor *)

Lemma extract_fields_split (text : string) (document_type : DocumentType) :
  ExtractionService.extract_fields text document_type
  = (ExtractionService.refine_one document_type
       <$> ExtractionService._extract_pattern_fields text)
    ++ match document_type with
       | PROMOTIONAL => ExtractionService._extract_promotional_fields text
       | RECEIPT => ExtractionService._extract_receipt_fields text
       | BILL_STATEMENT => ExtractionService._extract_bill_fields text
       | _ => []
       end.
Proof.
  unfold ExtractionService.extract_fields. rewrite refine_fields_map.
  destruct document_type; by rewrite ?app_nil_r.
Qed.

Lemma first_field_length (patterns : list Re.regex) (text k : string)
    (c : float) :
  length (ExtractionService.first_field patterns text k c) <= 1.
Proof.
  unfold ExtractionService.first_field. case_match; cbn; lia.
Qed.

Lemma promotional_fields_length (text : string) :
  length (ExtractionService._extract_promotional_fields text) <= 2.
Proof.
  unfold ExtractionService._extract_promotional_fields. rewrite length_app.
  pose proof (first_field_length ExtractionService.promo_patterns text
                "promo_code" 0.95%float).
  pose proof (first_field_length ExtractionService.expiry_patterns text
                "offer_expiry" 0.90%float).
  lia.
Qed.

Lemma receipt_fields_length (text : string) :
  length (ExtractionService._extract_receipt_fields text) <= 2.
Proof.
  unfold ExtractionService._extract_receipt_fields. rewrite length_app.
  pose proof (first_field_length ExtractionService.receipt_patterns text
                "transaction_id" 0.95%float).
  case_match; cbn [length]; lia.
Qed.

Lemma bill_fields_length (text : string) :
  length (ExtractionService._extract_bill_fields text) <= 2.
Proof.
  unfold ExtractionService._extract_bill_fields. rewrite length_app.
  pose proof (first_field_length ExtractionService.due_date_patterns text
                "due_date" 0.95%float).
  case_match; cbn [length]; lia.
Qed.

(** X16.  Refinement keeps the Stage-1 fields one for one and in order,
    whatever the document type: the output starts with one field per
    Stage-1 field, with the same value and source, and identical to it
    unless it is an "amount" of a PROMOTIONAL or BILL_STATEMENT document;
    at most two type-specific fields follow, and none for a type other than
    PROMOTIONAL, RECEIPT and BILL_STATEMENT. *)
Theorem refinement_keeps_stage1 (text : string) (document_type : DocumentType) :
  let stage1 := ExtractionService._extract_pattern_fields text in
  let out := ExtractionService.extract_fields text document_type in
  length stage1 <= length out <= length stage1 + 2
  /\ (document_type ∉ [PROMOTIONAL; RECEIPT; BILL_STATEMENT] -> out = stage1)
  /\ forall i field,
       stage1 !! i = Some field ->
       exists refined,
         out !! i = Some refined
         /\ value refined = value field
         /\ source refined = source field
         /\ (document_type ∉ [PROMOTIONAL; BILL_STATEMENT]
             \/ key field <> "amount" -> refined = field).
Proof.
  intros stage1 out. subst out. rewrite extract_fields_split. fold stage1.
  split; [|split].
  - rewrite length_app, length_fmap.
    pose proof (promotional_fields_length text).
    pose proof (receipt_fields_length text).
    pose proof (bill_fields_length text).
    destruct document_type; cbn [length]; lia.
  - intros Hty.
    destruct document_type; try (exfalso; apply Hty; set_solver);
      rewrite app_nil_r; apply list_fmap_id.
  - intros i field Hi.
    exists (ExtractionService.refine_one document_type field).
    split.
    { rewrite lookup_app_l by (rewrite length_fmap; by eapply lookup_lt_Some).
      by rewrite list_lookup_fmap, Hi. }
    unfold ExtractionService.refine_one.
    destruct document_type; cbn; repeat split; try done;
      destruct (String.eqb_spec (key field) "amount"); try done;
      intros [Hty | Hkey]; try done; exfalso; apply Hty; set_solver.
Qed.

Lemma refinement_keeps_stage1_witness :
  ExtractionService.extract_fields "card 4111 of john@doe.org, $5" CREDIT_CARD
  = ExtractionService._extract_pattern_fields "card 4111 of john@doe.org, $5".
Proof.
  apply (refinement_keeps_stage1 "card 4111 of john@doe.org, $5" CREDIT_CARD).
  intros H. repeat (apply elem_of_cons in H as [H | H]; [discriminate|]).
  by apply elem_of_nil in H.
Defined.

Lemma extract_fields_bill (text : string) :
  ExtractionService.extract_fields text BILL_STATEMENT
  = (ExtractionService.refine_one BILL_STATEMENT
       <$> ExtractionService._extract_pattern_fields text)
    ++ ExtractionService._extract_bill_fields text.
Proof. apply extract_fields_split. Qed.

(** X17.  For a BILL_STATEMENT document every Stage-1 "amount" is there as
    "amount_due" with the original confidence times 0.9.  When a due-date
    pattern matches, the field right after the Stage-1 fields is "due_date"
    (0.95), from the first pattern of the ordered list that matches; when
    the account pattern matches, the last field is "account_number"
    (0.90). *)
Theorem bill_extraction (text : string) :
  let stage1 := ExtractionService._extract_pattern_fields text in
  let out := ExtractionService.extract_fields text BILL_STATEMENT in
  (forall i field,
     stage1 !! i = Some field -> key field = "amount" ->
     out !! i
     = Some {| key := "amount_due";
               value := value field;
               confidence := (confidence field * 0.9)%float;
               source := source field |})
  /\ (forall i pattern m,
        ExtractionService.due_date_patterns !! i = Some pattern ->
        Re.search true pattern text = Some m ->
        (forall j earlier,
           j < i -> ExtractionService.due_date_patterns !! j = Some earlier ->
           Re.search true earlier text = None) ->
        out !! length stage1
        = Some (ExtractionService.pattern_field "due_date" (Re.group m 1)
                  0.95%float))
  /\ (forall m,
        Re.search true ExtractionService.account_pattern text = Some m ->
        last out
        = Some (ExtractionService.pattern_field "account_number"
                  (Re.group m 1) 0.90%float)).
Proof.
  intros stage1 out. subst out. rewrite extract_fields_bill. fold stage1.
  split; [|split].
  - intros i field Hi Hkey.
    rewrite lookup_app_l by (rewrite length_fmap; by eapply lookup_lt_Some).
    rewrite list_lookup_fmap, Hi. cbn.
    unfold ExtractionService.refine_one. by rewrite Hkey.
  - intros i pattern m Hi Hm Hearlier.
    rewrite lookup_app_r by (by rewrite length_fmap).
    rewrite length_fmap, Nat.sub_diag.
    unfold ExtractionService._extract_bill_fields,
      ExtractionService.first_field.
    by rewrite (first_match_first _ _ _ _ _ Hi Hm Hearlier).
  - intros m Hm. unfold ExtractionService._extract_bill_fields.
    rewrite Hm, !app_assoc. apply last_snoc.
Qed.

(** The utility bill of the test suite.  The account pattern allows letters
    in its group, so on "Account Number: 123456789" the account number it
    captures is the word "Number". *)
Lemma bill_extraction_witness :
  let text := "Amount Due: $102.87" +:+ nl +:+ "Due Date: 12/15/2025" +:+ nl
              +:+ "Account Number: 123456789" in
  let out := ExtractionService.extract_fields text BILL_STATEMENT in
  out !! 0 = Some {| key := "amount_due"; value := "$102.87";
                     confidence := (0.85 * 0.9)%float; source := "pattern" |}
  /\ out !! 2 = Some (ExtractionService.pattern_field "due_date" "12/15/2025"
                        0.95%float)
  /\ last out = Some (ExtractionService.pattern_field "account_number"
                        "Number" 0.90%float).
Proof.
  intros text out.
  destruct (bill_extraction text) as (Hamount & Hdue & Haccount).
  split; [|split].
  - by apply (Hamount 0 (ExtractionService.pattern_field "amount" "$102.87"
                           0.85%float)).
  - refine (Hdue 0 _ {| Re.whole := "Due Date: 12/15/2025";
                        Re.groups := [(1, "12/15/2025")] |} eq_refl _ _).
    + by vm_compute.
    + intros j earlier Hj. lia.
  - refine (Haccount {| Re.whole := "Account Number";
                        Re.groups := [(1, "Number")] |} _).
    by vm_compute.
Defined.

Lemma stage1_schema (text : string) (field : FieldModel) :
  field ∈ ExtractionService._extract_pattern_fields text ->
  exists v,
    field = ExtractionService.pattern_field "amount" v 0.85%float
    \/ field = ExtractionService.pattern_field "date" v 0.90%float
    \/ field = ExtractionService.pattern_field "email" v 0.95%float
    \/ field = ExtractionService.pattern_field "phone" v 0.85%float.
Proof.
  unfold ExtractionService._extract_pattern_fields.
  rewrite !elem_of_app, !list_elem_of_fmap.
  intros [(m & -> & _) | [(m & -> & _) | [(m & -> & _) | (m & -> & _)]]];
    eexists; eauto.
Qed.

Lemma first_field_schema (patterns : list Re.regex) (text k : string)
    (c : float) (field : FieldModel) :
  field ∈ ExtractionService.first_field patterns text k c ->
  exists v, field = ExtractionService.pattern_field k v c.
Proof.
  unfold ExtractionService.first_field. case_match.
  - intros ->%list_elem_of_singleton. eauto.
  - by intros ?%elem_of_nil.
Qed.

(** X18.  Every field [extract_fields] returns has source "pattern" and a
    key and confidence taken from a table fixed by the document type; in
    particular a PROMOTIONAL or BILL_STATEMENT result has no "amount" key
    (the amounts are "offer_amount" and "amount_due" there), and every
    confidence lies between 0 and 1 as [FieldModel] requires. *)
Theorem extracted_fields_schema
    (text : string) (document_type : DocumentType) (field : FieldModel) :
  field ∈ ExtractionService.extract_fields text document_type ->
  source field = "pattern"
  /\ In (key field, confidence field)
       match document_type with
       | PROMOTIONAL =>
           [("offer_amount", 0.85 * 0.9); ("date", 0.90); ("email", 0.95);
            ("phone", 0.85); ("promo_code", 0.95); ("offer_expiry", 0.90)]
       | RECEIPT =>
           [("amount", 0.85); ("date", 0.90); ("email", 0.95);
            ("phone", 0.85); ("transaction_id", 0.95); ("total_amount", 0.95)]
       | BILL_STATEMENT =>
           [("amount_due", 0.85 * 0.9); ("date", 0.90); ("email", 0.95);
            ("phone", 0.85); ("due_date", 0.95); ("account_number", 0.90)]
       | _ =>
           [("amount", 0.85); ("date", 0.90); ("email", 0.95);
            ("phone", 0.85)]
       end%float
  /\ (0 <=? confidence field)%float = true
  /\ (confidence field <=? 1)%float = true.
Proof.
  rewrite extract_fields_split, elem_of_app, list_elem_of_fmap.
  intros [(f0 & -> & Hf0) | Hextra].
  - apply stage1_schema in Hf0 as (v & [-> | [-> | [-> | ->]]]);
      destruct document_type; cbn; auto 12.
  - destruct document_type; try (by apply elem_of_nil in Hextra);
      unfold ExtractionService._extract_promotional_fields,
        ExtractionService._extract_receipt_fields,
        ExtractionService._extract_bill_fields in Hextra;
      apply elem_of_app in Hextra as [Hf | Hf];
      try (apply first_field_schema in Hf as (v & ->); cbn; auto 12);
      revert Hf; case_match;
      try (by intros ?%elem_of_nil);
      intros ->%list_elem_of_singleton; cbn; auto 12.
Qed.

Lemma extracted_fields_schema_witness :
  let field := ExtractionService.pattern_field "promo_code" "Offer25"
                 0.95%float in
  source field = "pattern"
  /\ In (key field, confidence field)
       [("offer_amount", 0.85 * 0.9); ("date", 0.90); ("email", 0.95);
        ("phone", 0.85); ("promo_code", 0.95); ("offer_expiry", 0.90)]%float
  /\ (0 <=? confidence field)%float = true
  /\ (confidence field <=? 1)%float = true.
Proof.
  apply (extracted_fields_schema "Use promo code Offer25." PROMOTIONAL).
  by vm_compute; apply list_elem_of_singleton.
Defined.

(** ** The matcher copies from the subject *)

Lemma is_suffix_refl (s : string) : is_suffix s s.
Proof. by exists "". Qed.

Lemma is_suffix_trans (a b c : string) :
  is_suffix a b -> is_suffix b c -> is_suffix a c.
Proof.
  intros [p ->] [q ->]. exists (q +:+ p). by rewrite append_assoc.
Qed.

Lemma is_suffix_tail (b : ascii) (t s : string) :
  is_suffix (String b t) s -> is_suffix t s.
Proof.
  intros [p ->]. exists (p +:+ String b ""). by rewrite append_assoc.
Qed.

Lemma is_suffix_cons (b : ascii) (t s : string) :
  is_suffix t s -> is_suffix t (String b s).
Proof. intros [p ->]. by exists (String b p). Qed.

Lemma substring_prefix (pre t : string) :
  String.substring 0 (String.length pre) (pre +:+ t) = pre.
Proof.
  induction pre as [|c pre IH].
  - by destruct t.
  - rewrite append_cons. cbn [String.length String.substring]. by rewrite IH.
Qed.

Lemma consumed_suffix (t s : string) :
  is_suffix t s -> s = Re.consumed s t +:+ t.
Proof.
  intros [pre ->]. unfold Re.consumed.
  rewrite string_length_app, Nat.add_sub. by rewrite substring_prefix.
Qed.

Lemma str_in_middle (a m b : string) : str_in m (a +:+ m +:+ b) = true.
Proof. apply str_in_spec. by exists a, b. Qed.

Lemma consumed_in (s0 s t : string) :
  is_suffix s s0 -> is_suffix t s -> str_in (Re.consumed s t) s0 = true.
Proof.
  intros [pre ->] Ht. rewrite (consumed_suffix t s Ht) at 2.
  apply str_in_middle.
Qed.

Lemma lit_sound (ic : bool) (s : string) (p p' : Re.pos) :
  Re.lit ic s p = Some p' ->
  is_suffix (Re.rest p') (Re.rest p) /\ Re.caps p' = Re.caps p.
Proof.
  revert p. induction s as [|a s IH]; intros p; cbn [Re.lit].
  - intros [= <-]. split; [apply is_suffix_refl | done].
  - destruct (Re.rest p) as [|b t] eqn:Hrest; [done|].
    case_match; [|done]. intros [Hsuf Hcaps]%IH. cbn in Hsuf, Hcaps.
    split; [|done]. by apply is_suffix_cons.
Qed.

Lemma rep_sound {R} (ic : bool) (cl : list Re.item) (cs : list (nat * string))
    (k : Re.pos -> option R) (x : R) (s : string) :
  forall lo hi pv,
    Re.rep ic cl lo hi cs pv s k = Some x ->
    exists p',
      k p' = Some x /\ is_suffix (Re.rest p') s /\ Re.caps p' = cs.
Proof.
  assert (Hstop : forall lo pv t,
             match lo with
             | 0 => k {| Re.prev := pv; Re.rest := t; Re.caps := cs |}
             | S _ => None
             end = Some x ->
             exists p',
               k p' = Some x /\ is_suffix (Re.rest p') t /\ Re.caps p' = cs).
  { intros [|lo] pv t H; [|done].
    eexists. split; [exact H|]. split; [apply is_suffix_refl | done]. }
  induction s as [|b t IH]; intros lo hi pv; cbn [Re.rep].
  - apply Hstop.
  - destruct (Re.hi_open hi && Re.cls_match ic cl b); [|apply Hstop].
    destruct (Re.rep ic cl (Nat.pred lo) (Nat.pred <$> hi) cs (Some b) t k)
      as [y|] eqn:Hrec; [|apply Hstop].
    intros [= ->]. apply IH in Hrec as (p' & Hk & Hsuf & Hcaps).
    exists p'. split; [done|]. split; [|done]. by apply is_suffix_cons.
Qed.

(** A successful run hands its continuation a position further on in the
    same subject, with groups that all occur in the subject. *)
Lemma run_sound {R} (ic : bool) (r : Re.regex) :
  forall (p : Re.pos) (k : Re.pos -> option R) (x : R),
    Re.run ic r p k = Some x ->
    exists p',
      k p' = Some x
      /\ is_suffix (Re.rest p') (Re.rest p)
      /\ forall s0,
           is_suffix (Re.rest p) s0 ->
           caps_in s0 (Re.caps p) -> caps_in s0 (Re.caps p').
Proof.
  induction r as [s | cl | cl lo hi | r1 IH1 | r1 IH1 r2 IH2 | r1 IH1 r2 IH2
                  | n r1 IH1 | ]; intros p k x; cbn [Re.run].
  - destruct (Re.lit ic s p) as [p'|] eqn:Hlit; [|done].
    intros Hk. apply lit_sound in Hlit as [Hsuf Hcaps].
    exists p'. split; [done|]. split; [done|]. intros s0 _. by rewrite Hcaps.
  - destruct (Re.rest p) as [|b t] eqn:Hrest; [done|].
    case_match; [|done]. intros Hk. eexists. split; [exact Hk|].
    cbn. split; [by exists (String b "") | done].
  - intros (p' & Hk & Hsuf & Hcaps)%rep_sound.
    exists p'. split; [done|]. split; [done|]. intros s0 _. by rewrite Hcaps.
  - destruct (Re.run ic r1 p k) as [y|] eqn:Hrun.
    + intros [= ->]. by apply IH1.
    + intros Hk. exists p. split; [done|]. split; [apply is_suffix_refl | done].
  - intros (p1 & Hrun2 & Hsuf1 & Hcaps1)%IH1.
    apply IH2 in Hrun2 as (p2 & Hk & Hsuf2 & Hcaps2).
    exists p2. split; [done|]. split; [by eapply is_suffix_trans|].
    intros s0 Hs0 Hc. apply Hcaps2; [by eapply is_suffix_trans | by apply Hcaps1].
  - destruct (Re.run ic r1 p k) as [y|] eqn:Hrun.
    + intros [= ->]. by apply IH1.
    + apply IH2.
  - intros (p1 & Hk & Hsuf & Hcaps)%IH1.
    eexists. split; [exact Hk|]. cbn. split; [done|].
    intros s0 Hs0 Hc. apply Forall_cons. split.
    + cbn. by apply consumed_in.
    + by apply Hcaps.
  - case_match; [|done]. intros Hk. exists p.
    split; [done|]. split; [apply is_suffix_refl | done].
Qed.

Lemma match_at_sound (ic : bool) (r : Re.regex) (pv : option ascii)
    (s s0 : string) (m : Re.rmatch) :
  is_suffix s s0 -> Re.match_at ic r pv s = Some m -> match_in s0 m.
Proof.
  intros Hs0. unfold Re.match_at.
  destruct (Re.run _ _ _ _) as [p'|] eqn:Hrun; [|done].
  intros [= <-]. apply run_sound in Hrun as (q & [= ->] & Hsuf & Hcaps).
  cbn in Hsuf, Hcaps. split; cbn.
  - by apply consumed_in.
  - apply Hcaps; [done | apply Forall_nil_2].
Qed.

Lemma search_from_sound (ic : bool) (r : Re.regex) (s0 s : string) :
  forall pv m,
    is_suffix s s0 -> Re.search_from ic r pv s = Some m -> match_in s0 m.
Proof.
  induction s as [|b t IH]; intros pv m Hs0; cbn [Re.search_from].
  - destruct (Re.match_at ic r pv "") as [m'|] eqn:Hm; [|done].
    intros [= <-]. by eapply match_at_sound.
  - destruct (Re.match_at ic r pv (String b t)) as [m'|] eqn:Hm.
    + intros [= <-]. by eapply match_at_sound.
    + apply IH. by apply (is_suffix_tail b).
Qed.

Lemma finditer_from_sound (ic : bool) (r : Re.regex) (s0 s : string) :
  forall skip pv,
    is_suffix s s0 ->
    Forall (match_in s0) (Re.finditer_from ic r skip pv s).
Proof.
  induction s as [|b t IH]; intros skip pv Hs0; cbn [Re.finditer_from].
  - destruct skip; [|done].
    destruct (Re.match_at ic r pv "") as [m|] eqn:Hm; [|done].
    apply Forall_cons. split; [by eapply match_at_sound | done].
  - pose proof (is_suffix_tail _ _ _ Hs0) as Ht.
    destruct skip; [|by apply IH].
    destruct (Re.match_at ic r pv _) as [m|] eqn:Hm; [|by apply IH].
    apply Forall_cons.
    split; [by apply (match_at_sound ic r pv (String b t)) | by apply IH].
Qed.

Lemma str_in_empty (s : string) : str_in "" s = true.
Proof. by destruct s. Qed.

Lemma group_in (s0 : string) (m : Re.rmatch) (n : nat) :
  match_in s0 m -> str_in (Re.group m n) s0 = true.
Proof.
  intros [_ Hcaps]. unfold Re.group.
  destruct (find _ _) as [e|] eqn:Hfind; [|apply str_in_empty].
  apply find_some in Hfind as [Hin _].
  unfold caps_in in Hcaps. rewrite Forall_forall in Hcaps.
  by apply Hcaps, list_elem_of_In.
Qed.

Lemma search_sound (ic : bool) (r : Re.regex) (s : string) (m : Re.rmatch) :
  Re.search ic r s = Some m -> match_in s m.
Proof. apply search_from_sound, is_suffix_refl. Qed.

Lemma finditer_sound (ic : bool) (r : Re.regex) (s : string) (m : Re.rmatch) :
  m ∈ Re.finditer ic r s -> match_in s m.
Proof.
  intros Hin.
  pose proof (finditer_from_sound ic r s s 0 None (is_suffix_refl s)) as H.
  rewrite Forall_forall in H. by apply H.
Qed.

Lemma first_match_sound (patterns : list Re.regex) (text : string)
    (m : Re.rmatch) :
  ExtractionService.first_match patterns text = Some m -> match_in text m.
Proof.
  induction patterns as [|p patterns IH]; cbn [ExtractionService.first_match];
    [done|].
  destruct (Re.search true p text) as [m'|] eqn:Hm; [|done].
  intros [= <-]. by apply (search_sound true p).
Qed.

Lemma first_field_value (patterns : list Re.regex) (text k : string)
    (c : float) (field : FieldModel) :
  field ∈ ExtractionService.first_field patterns text k c ->
  str_in (value field) text = true.
Proof.
  unfold ExtractionService.first_field.
  destruct (ExtractionService.first_match _ _) as [m|] eqn:Hm.
  - intros ->%list_elem_of_singleton. cbn.
    by apply group_in, (first_match_sound patterns).
  - by intros ?%elem_of_nil.
Qed.

(** X19.  The extractor does not invent text.  The value of every returned
    field occurs verbatim in the recognised text, except that the values of
    the amount fields ("amount", "offer_amount", "amount_due",
    "total_amount") are a "$" followed by a number that occurs verbatim in
    the text. *)
Theorem extracted_values_come_from_text
    (text : string) (document_type : DocumentType) (field : FieldModel) :
  field ∈ ExtractionService.extract_fields text document_type ->
  exists copied,
    str_in copied text = true
    /\ (value field = copied
        \/ (value field = "$" +:+ copied
            /\ In (key field)
                 ["amount"; "offer_amount"; "amount_due"; "total_amount"])).
Proof.
  rewrite extract_fields_split, elem_of_app, list_elem_of_fmap.
  intros [(f0 & -> & Hf0) | Hextra].
  - assert (Hsame : value (ExtractionService.refine_one document_type f0)
                    = value f0).
    { unfold ExtractionService.refine_one.
      destruct document_type; try done; by case_match. }
    assert (Hkey : key f0 = "amount" ->
                   In (key (ExtractionService.refine_one document_type f0))
                     ["amount"; "offer_amount"; "amount_due"; "total_amount"]).
    { intros Hk. unfold ExtractionService.refine_one.
      destruct document_type; rewrite ?Hk; cbn; auto. }
    rewrite Hsame. revert Hf0.
    unfold ExtractionService._extract_pattern_fields.
    rewrite !elem_of_app, !list_elem_of_fmap.
    intros [(m & -> & Hm) | [(m & -> & Hm) | [(m & -> & Hm) | (m & -> & Hm)]]];
      apply finditer_sound in Hm.
    + exists (Re.group m 1). split; [by apply group_in|].
      right. split; [done | by apply Hkey].
    + exists (Re.group m 1). split; [by apply group_in | by left].
    + exists (Re.whole m). split; [apply Hm | by left].
    + exists (Re.whole m). split; [apply Hm | by left].
  - destruct document_type; try (by apply elem_of_nil in Hextra);
      unfold ExtractionService._extract_promotional_fields,
        ExtractionService._extract_receipt_fields,
        ExtractionService._extract_bill_fields in Hextra;
      apply elem_of_app in Hextra as [Hf | Hf];
      try (exists (value field); split;
           [by eapply first_field_value | by left]);
      revert Hf;
      destruct (Re.search true _ text) as [m|] eqn:Hm;
      try (by intros ?%elem_of_nil);
      intros ->%list_elem_of_singleton; apply (search_sound true) in Hm;
      exists (Re.group m 1); (split; [by apply group_in|]); cbn; auto 10.
Qed.

Lemma extracted_values_come_from_text_witness :
  exists copied,
    str_in copied "Order #W-77 total $ 19.99" = true
    /\ ("$19.99" = copied
        \/ ("$19.99" = "$" +:+ copied
            /\ In "total_amount"
                 ["amount"; "offer_amount"; "amount_due"; "total_amount"])).
Proof.
  apply (extracted_values_come_from_text "Order #W-77 total $ 19.99" RECEIPT
           (ExtractionService.pattern_field "total_amount" "$19.99" 0.95%float)).
  vm_compute. set_solver.
Defined.

(** ** Groups do not change what a pattern matches *)

Lemma lit_same_place (ic : bool) (s : string) (p q : Re.pos) :
  same_place p q -> both same_place (Re.lit ic s p) (Re.lit ic s q).
Proof.
  revert p q. induction s as [|a s IH]; intros p q Hpq; cbn [Re.lit].
  - done.
  - destruct Hpq as [Hprev Hrest]. rewrite Hrest.
    destruct (Re.rest q) as [|b t]; [done|].
    destruct (Re.cls_match ic [Re.IChr a] b); [|done].
    by apply IH.
Qed.

Lemma rep_same_place {A B} (rel : A -> B -> Prop) (ic : bool)
    (cl : list Re.item) (cs cs' : list (nat * string))
    (k : Re.pos -> option A) (k' : Re.pos -> option B) (s : string) :
  (forall p q, same_place p q -> both rel (k p) (k' q)) ->
  forall lo hi pv,
    both rel (Re.rep ic cl lo hi cs pv s k) (Re.rep ic cl lo hi cs' pv s k').
Proof.
  intros Hk.
  assert (Hstop : forall lo pv t,
             both rel
               match lo with
               | 0 => k {| Re.prev := pv; Re.rest := t; Re.caps := cs |}
               | S _ => None
               end
               match lo with
               | 0 => k' {| Re.prev := pv; Re.rest := t; Re.caps := cs' |}
               | S _ => None
               end).
  { intros [|lo] pv t; [by apply Hk | done]. }
  induction s as [|b t IH]; intros lo hi pv; cbn [Re.rep]; [apply Hstop|].
  destruct (Re.hi_open hi && Re.cls_match ic cl b); [|apply Hstop].
  specialize (IH (Nat.pred lo) (Nat.pred <$> hi) (Some b)).
  destruct (Re.rep ic cl _ _ cs _ t k), (Re.rep ic cl _ _ cs' _ t k');
    first [done | apply Hstop].
Qed.

Lemma run_erase_groups {A B} (rel : A -> B -> Prop) (ic : bool)
    (r : Re.regex) :
  forall (p q : Re.pos) (k : Re.pos -> option A) (k' : Re.pos -> option B),
    same_place p q ->
    (forall p' q', same_place p' q' -> both rel (k p') (k' q')) ->
    both rel (Re.run ic r p k) (Re.run ic (erase_groups r) q k').
Proof.
  induction r as [s | cl | cl lo hi | r1 IH1 | r1 IH1 r2 IH2 | r1 IH1 r2 IH2
                  | n r1 IH1 | ]; intros p q k k' Hpq Hk;
    cbn [Re.run erase_groups].
  - pose proof (lit_same_place ic s p q Hpq) as Hlit.
    destruct (Re.lit ic s p), (Re.lit ic s q); try done. by apply Hk.
  - destruct Hpq as [Hprev Hrest]. rewrite Hrest.
    destruct (Re.rest q) as [|b t]; [done|].
    destruct (Re.cls_match ic cl b); [|done]. by apply Hk.
  - destruct Hpq as [-> ->]. by apply rep_same_place.
  - specialize (IH1 p q k k' Hpq Hk). specialize (Hk p q Hpq).
    by destruct (Re.run ic r1 p k), (Re.run ic (erase_groups r1) q k').
  - apply IH1; [done|]. intros p' q' Hpq'. by apply IH2.
  - specialize (IH1 p q k k' Hpq Hk). specialize (IH2 p q k k' Hpq Hk).
    by destruct (Re.run ic r1 p k), (Re.run ic (erase_groups r1) q k').
  - apply IH1; [done|]. intros p' q' [Hprev Hrest]. by apply Hk.
  - destruct Hpq as [Hprev Hrest]. unfold Re.next. rewrite Hprev, Hrest.
    case_match; [by apply Hk | done].
Qed.

Lemma match_at_erase_groups (ic : bool) (r : Re.regex) (pv : option ascii)
    (s : string) :
  both (fun m m' => Re.whole m = Re.whole m')
    (Re.match_at ic r pv s) (Re.match_at ic (erase_groups r) pv s).
Proof.
  unfold Re.match_at.
  pose proof (run_erase_groups same_place ic r
                {| Re.prev := pv; Re.rest := s; Re.caps := [] |}
                {| Re.prev := pv; Re.rest := s; Re.caps := [] |}
                Some Some) as H.
  destruct (Re.run ic r _ Some), (Re.run ic (erase_groups r) _ Some);
    cbn in H |- *; try (by apply H).
  destruct H as [_ Hrest]; [done | done |]. by rewrite Hrest.
Qed.

Lemma finditer_erase_groups (ic : bool) (r : Re.regex) (s : string) :
  forall skip pv,
    length (Re.finditer_from ic r skip pv s)
    = length (Re.finditer_from ic (erase_groups r) skip pv s).
Proof.
  induction s as [|b t IH]; intros skip pv; cbn [Re.finditer_from].
  - destruct skip; [|done].
    pose proof (match_at_erase_groups ic r pv "") as H.
    by destruct (Re.match_at ic r pv ""),
         (Re.match_at ic (erase_groups r) pv "").
  - destruct skip; [|apply IH].
    pose proof (match_at_erase_groups ic r pv (String b t)) as H.
    destruct (Re.match_at ic r pv (String b t)) as [m|],
      (Re.match_at ic (erase_groups r) pv (String b t)) as [m'|];
      cbn in H |- *; first [done | apply IH | by rewrite H, IH].
Qed.

(** X20.  The receipt detector and the extractor count the same dollar
    amounts: Stage 1 returns exactly [count_amounts text] fields keyed
    "amount", before all its other fields.  So a receipt accepted by the
    weak tier always comes with at least three amount fields. *)
Theorem stage1_amounts_are_counted (text : string) :
  exists amounts others,
    ExtractionService._extract_pattern_fields text = amounts ++ others
    /\ length amounts = receipt.count_amounts text
    /\ Forall (fun f => key f = "amount") amounts
    /\ Forall (fun f => key f <> "amount") others.
Proof.
  unfold ExtractionService._extract_pattern_fields. eexists _, _.
  split; [reflexivity|]. split; [|split].
  - rewrite length_fmap. unfold receipt.count_amounts, Re.findall, Re.finditer.
    rewrite length_fmap. apply finditer_erase_groups.
  - by apply Forall_fmap, Forall_true.
  - rewrite !Forall_app. repeat split; by apply Forall_fmap, Forall_true.
Qed.

(** * Properties of the endpoints *)








(** X24.  The factory is a singleton.  Once [get_provider] has handed out a
    provider, every later call returns that same provider without reading
    the settings, even if they have changed; a failed call caches nothing;
    and after [reset_provider] the next call builds the provider from the
    settings again. *)
Theorem get_provider_is_cached
    (format_provider : config.LLMProvider -> string)
    (sdk_error : config.LLMProvider -> string -> string -> option string)
    (settings : config.Settings) (_instance : option api.provider) :
  (forall p _instance',
     api.get_provider format_provider sdk_error settings _instance
     = (inr p, _instance') ->
     _instance' = Some p
     /\ forall later,
          api.get_provider format_provider sdk_error later _instance'
          = (inr p, _instance'))
  /\ (forall message _instance',
        api.get_provider format_provider sdk_error settings _instance
        = (inl message, _instance') ->
        _instance = None /\ _instance' = None)
  /\ api.get_provider format_provider sdk_error settings
       (api.reset_provider _instance)
     = match api.create_provider format_provider sdk_error settings None with
       | inr p => (inr p, Some p)
       | inl message => (inl message, None)
       end.
Proof.
  split; [|split; [|done]].
  - intros p st' Hget. unfold api.get_provider in Hget.
    destruct _instance as [q|].
    + injection Hget as <- <-. by split.
    + destruct (api.create_provider _ _ _ _) as [m|q]; [done|].
      injection Hget as <- <-. by split.
  - intros message st' Hget. unfold api.get_provider in Hget.
    destruct _instance as [q|]; [done|].
    destruct (api.create_provider _ _ _ _) as [m|q]; [|done].
    by injection Hget as <- <-.
Qed.
